(** * SubtitleProject: project state and checkpoint orchestration

    A shallow embedding of [PySubtitle/SubtitleProject.py] (class
    [SubtitleProject]) and of the part of [gpt-subtrans.py] that feeds it.

    The class is stateful and raises exceptions, so its methods are embedded
    as computations of a state-and-exception monad over a [World]: the
    project object, the file system, the event slots of the translator the
    project subscribes to, and a trace of the externally visible effects.
    A Python exception leaves every mutation made before it in place, so a
    computation returns the world together with its outcome, also when it
    raises.

    What is left out: calls to [logging] (they change no state the class
    reads), and the mutex [self.lock] (the model is sequential; the only
    second thread the class could start is the autosave thread, see
    [__init__]).  Not embedded: [__del__] and [_background_autosave] (they
    act only once the autosave thread exists), the read-only helpers
    [AnyTranslated], [GetProjectSettings] and [target_language], and the
    back-reference [subtitles.project].  Failures of the operating system
    (a file that cannot be opened for writing) are outside the model. *)

From Stdlib Require Import Ascii String List Bool.
From stdpp Require Import base option list gmap strings.

Local Open Scope string_scope.
Local Open Scope list_scope.

(** ** Python strings *)

(** [str.lower] on the ASCII range.  Strings are sequences of bytes; a byte
    outside [A-Z] is left alone.  (Python lowers non-ASCII letters too, but the
    only non-ASCII character whose lower case is an ASCII letter is the Kelvin
    sign, which lowers to "k", a letter no mode name contains.) *)
Definition lower_ascii (c : ascii) : ascii :=
  let n := nat_of_ascii c in
  if (65 <=? n)%nat && (n <=? 90)%nat then ascii_of_nat (n + 32) else c.

Fixpoint lower (s : string) : string :=
  match s with
  | EmptyString => EmptyString
  | String c s' => String (lower_ascii c) (lower s')
  end.

(** [x in [a, b, ...]] on strings. *)
Definition str_in (x : string) (l : list string) : bool :=
  existsb (String.eqb x) l.

(** Truthiness of a value that is [None] or a string: [None] and [''] are
    falsy. *)
Definition truthy_str (o : option string) : bool :=
  match o with
  | None | Some "" => false
  | Some _ => true
  end.

(** ** Mode flags *)

(** The eight attributes [__init__] derives from the mode string
    (SubtitleProject.py:31-39). *)
Record ModeFlags := {
  read_project : bool;
  write_project : bool;
  update_project : bool;
  load_subtitles : bool;
  preview : bool;
  resume : bool;
  reparse : bool;
  retranslate : bool;
}.

(** [project_mode] after lines 27-29: the looked up value, lowered when it is
    truthy.  [options.get('project', '')] is [None] when the key is stored
    with the value [None] (gpt-subtrans.py:91 stores
    [args.project and args.project.lower()], which is [None] when --project
    is not given), [''] when the key is absent, and the string otherwise. *)
Definition normalise_mode (project_mode : option string) : option string :=
  if truthy_str project_mode then lower <$> project_mode else project_mode.

(** [project_mode in [...]]: [None in [...]] is [False]. *)
Definition mode_in (project_mode : option string) (l : list string) : bool :=
  match project_mode with
  | None => false
  | Some m => str_in m l
  end.

(** Lines 27-39 of [__init__]. *)
Definition resolve_mode (project_mode : option string) : ModeFlags :=
  let project_mode := normalise_mode project_mode in
  let read_project :=
    mode_in project_mode ["true"; "read"; "resume"; "retranslate"; "reparse"] in
  let write_project :=
    mode_in project_mode
      ["true"; "write"; "preview"; "resume"; "retranslate"; "reparse"] in
  {| read_project := read_project;
     write_project := write_project;
     update_project := write_project && negb (mode_in project_mode ["reparse"]);
     load_subtitles :=
       match project_mode with None => true | Some _ => false end
       || mode_in project_mode ["true"; "write"; "reload"; "preview"];
     preview := mode_in project_mode ["preview"];
     resume := mode_in project_mode ["resume"];
     reparse := mode_in project_mode ["reparse"];
     retranslate := mode_in project_mode ["retranslate"] |}.

(** The table of section 4.1 of the specification, row by row, as the
    specification words it (read, write, update, load-source, preview, resume,
    reparse, retranslate); any other string is the all-false row. *)
Definition flags (r w u l p rs rp rt : bool) : ModeFlags :=
  {| read_project := r; write_project := w; update_project := u;
     load_subtitles := l; preview := p; resume := rs; reparse := rp;
     retranslate := rt |}.

Definition spec_mode_table (mode : string) : ModeFlags :=
  let T := true in
  let F := false in
  if String.eqb mode "" then flags F F F T F F F F
  else if String.eqb mode "true" then flags T T T T F F F F
  else if String.eqb mode "write" then flags F T T T F F F F
  else if String.eqb mode "read" then flags T F F F F F F F
  else if String.eqb mode "reload" then flags F F F T F F F F
  else if String.eqb mode "resume" then flags T T T F F T F F
  else if String.eqb mode "retranslate" then flags T T T F F F F T
  else if String.eqb mode "reparse" then flags T T F F F F T F
  else if String.eqb mode "preview" then flags F T T F T F F F
  else flags F F F F F F F F.

Definition mode_names : list string :=
  ["true"; "write"; "read"; "reload"; "resume"; "retranslate"; "reparse";
   "preview"].


(** ** Exceptions and effects *)

(** The exceptions the class raises or lets through. *)
Inductive exn :=
| Exception (msg : string)
| ValueError (msg : string)
| TypeError (msg : string)
| AttributeError (msg : string)
| UnboundLocalError (msg : string)
| TranslationError (msg : string)
| TranslationAbortedError (msg : string).

Inductive Result (A : Type) :=
| Return (a : A)
| Raise (e : exn).
Arguments Return {A} a.
Arguments Raise {A} e.

Definition raised {A} (r : Result A) : bool :=
  match r with Return _ => false | Raise _ => true end.

(** [except TranslationAbortedError]. *)
Definition is_abort (e : exn) : bool :=
  match e with TranslationAbortedError _ => true | _ => false end.

(** ** Computations that change a state and may raise

    A computation gets the state and gives back its outcome and the state it
    leaves: a raised exception keeps the mutations made before it. *)
Definition PyM (S A : Type) : Type := S -> Result A * S.

Definition ret {S A} (a : A) : PyM S A := fun w => (Return a, w).

Definition raise {S A} (e : exn) : PyM S A := fun w => (Raise e, w).

Definition bind {S A B} (m : PyM S A) (k : A -> PyM S B) : PyM S B :=
  fun w =>
    match m w with
    | (Return a, w') => k a w'
    | (Raise e, w') => (Raise e, w')
    end.

(** [try: m except Exception as e: h e]. *)
Definition try_except {S A} (m : PyM S A) (h : exn -> PyM S A) : PyM S A :=
  fun w =>
    match m w with
    | (Return a, w') => (Return a, w')
    | (Raise e, w') => h e w'
    end.

(** The outcome of a call that changes nothing of the state. *)
Definition of_result {S A} (r : Result A) : PyM S A := fun w => (r, w).

(** [if b: m]. *)
Definition when {S} (b : bool) (m : PyM S unit) : PyM S unit :=
  if b then m else ret tt.

Declare Scope py_scope.
Delimit Scope py_scope with py.
Notation "'let*' x ':=' m 'in' k" := (bind m (fun x => k))
  (at level 10, x name, m at level 100, k at level 200) : py_scope.
Notation "m ';;;' k" := (bind m (fun _ => k))
  (at level 100, k at level 200, right associativity) : py_scope.
Local Open Scope py_scope.

(** The three slots of [TranslationEvents]. *)
Inductive Channel := Preprocessed | BatchTranslated | SceneTranslated.

(** What can be subscribed to a slot of the translator: one of the bound
    methods of this project ([self._on_preprocessed] and its two siblings;
    a bound method of the same object compares equal to itself), or a handler
    of somebody else. *)
Inductive Handler :=
| self_on_preprocessed
| self_on_batch_translated
| self_on_scene_translated
| foreign_handler (id : nat).

Global Instance Handler_eq_dec : EqDecision Handler.
Proof. solve_decision. Defined.

(** Modelled from the spec: the class [TranslationEvents]
    (PySubtitle/TranslationEvents.py is not among the sources), "a
    subscribable event set with exactly three named events supporting dynamic
    subscribe/unsubscribe".  A slot is the list of its handlers in subscription
    order. *)
Record TranslationEvents := {
  preprocessed : list Handler;
  batch_translated : list Handler;
  scene_translated : list Handler;
}.

Definition slot (ch : Channel) (ev : TranslationEvents) : list Handler :=
  match ch with
  | Preprocessed => preprocessed ev
  | BatchTranslated => batch_translated ev
  | SceneTranslated => scene_translated ev
  end.

Definition set_slot (ch : Channel) (l : list Handler) (ev : TranslationEvents)
  : TranslationEvents :=
  match ch with
  | Preprocessed =>
      {| preprocessed := l; batch_translated := batch_translated ev;
         scene_translated := scene_translated ev |}
  | BatchTranslated =>
      {| preprocessed := preprocessed ev; batch_translated := l;
         scene_translated := scene_translated ev |}
  | SceneTranslated =>
      {| preprocessed := preprocessed ev; batch_translated := batch_translated ev;
         scene_translated := l |}
  end.

(** [slot += h] appends the handler; [slot -= h] removes it. *)
Definition subscribe (ch : Channel) (h : Handler) (ev : TranslationEvents)
  : TranslationEvents :=
  set_slot ch (slot ch ev ++ [h]) ev.

Definition unsubscribe (ch : Channel) (h : Handler) (ev : TranslationEvents)
  : TranslationEvents :=
  set_slot ch (filter (fun h' => h' <> h) (slot ch ev)) ev.

(** The autosave thread object of [_start_autosave_thread]. *)
Record Thread := {
  daemon : bool;
  started : bool;
}.

(** What [__init__] reads from [options]: the value of
    [options.get('project', '')], the truthiness of [options.get('autosave')]
    and [options.get('include_original', False)]. *)
Record Options := {
  opt_project : option string;
  opt_autosave : bool;
  opt_include_original : bool;
}.

Section Model.

(** The types the class treats as opaque: the values of a settings
    dictionary, scenes and batches. *)
Context {value scene batch : Type}.

(** The fields of a [SubtitleFile] the class reads or writes. *)
Record SubtitleFile := {
  sourcepath : option string;
  scenes : list scene;
  settings : gmap string value;
  outputpath : option string;
  target_language : option string;
  has_subtitles : bool;
}.

Definition set_outputpath (o : option string) (sf : SubtitleFile)
  : SubtitleFile :=
  {| sourcepath := sourcepath sf; scenes := scenes sf;
     settings := settings sf; outputpath := o;
     target_language := target_language sf;
     has_subtitles := has_subtitles sf |}.

Definition set_settings (st : gmap string value) (sf : SubtitleFile)
  : SubtitleFile :=
  {| sourcepath := sourcepath sf; scenes := scenes sf;
     settings := st; outputpath := outputpath sf;
     target_language := target_language sf;
     has_subtitles := has_subtitles sf |}.

(** What [self.subtitles] can hold: [None], a [SubtitleFile], or an object
    of another type (with its truthiness; it has none of the attributes of
    a [SubtitleFile]).  A [SubtitleFile] defines neither [__bool__] nor
    [__len__]: it is truthy. *)
Inductive PyObject :=
| PyNone
| PySubtitleFile (sf : SubtitleFile)
| PyOther (truth : bool).

Definition truthy (o : PyObject) : bool :=
  match o with
  | PyNone => false
  | PySubtitleFile _ => true
  | PyOther b => b
  end.

(** The payload of an event. *)
Inductive Payload :=
| Scenes (l : list scene)
| Batch (b : batch)
| Scene (s : scene).

(** Externally visible effects, in the order they happen. *)
Inductive Effect :=
| FileWritten (path : string) (data : string)
    (* open(path, 'w') and the write of the encoded project *)
| SaveTranslationCalled (outputpath : option string) (ok : bool)
    (* self.subtitles.SaveTranslation(outputpath); ok = it did not raise *)
| Forwarded (ch : Channel) (p : Payload) (dirty : bool)
    (* self.events.<ch>(p): the project's own event bus; its subscribers are
       called while self.needsupdate is [dirty] *)
| ForeignHandlerCalled (id : nat) (ch : Channel) (p : Payload).

(** The methods and functions the class calls and does not define. *)
Class Collaborators := {
  (* == on the values of a settings dictionary, and the value None *)
  value_eq : value -> value -> bool;
  value_None : value;
  (* os.path; normalising a normalised path changes nothing *)
  normpath : string -> string;
  normpath_idempotent : forall path, normpath (normpath path) = normpath path;
  splitext : string -> string * string;
  (* PySubtitle.Helpers.GetOutputPath *)
  GetOutputPath : string -> option string -> string;
  (* json.dumps(_, cls=SubtitleEncoder) and json.load(_, cls=SubtitleDecoder);
     None is a JSONDecodeError *)
  encode : SubtitleFile -> string;
  decode : string -> option SubtitleFile;
  (* SubtitleFile: the constructor and the methods the class calls *)
  new_SubtitleFile : string -> SubtitleFile;
  LoadSubtitles : gmap string string -> SubtitleFile -> Result SubtitleFile;
  Sanitise : SubtitleFile -> SubtitleFile;
  sf_SaveTranslation : option string -> SubtitleFile -> bool * SubtitleFile;
  updated_settings : gmap string value -> SubtitleFile -> gmap string value;
  default_outputpath : SubtitleFile -> option string;
  GetScene : SubtitleFile -> Z -> Result scene;
}.

Context {collab : Collaborators}.

(** Modelled from the spec: [SubtitleFile.UpdateProjectSettings] and
    [SubtitleFile.UpdateOutputPath] (PySubtitle/SubtitleFile.py is not among
    the sources): the first "applies the changes to content settings", the
    second "recomputes the output path"; neither touches another field. *)
Definition sf_UpdateProjectSettings (new : gmap string value)
    (sf : SubtitleFile) : SubtitleFile :=
  set_settings (updated_settings new sf) sf.

Definition UpdateOutputPath (sf : SubtitleFile) : SubtitleFile :=
  set_outputpath (default_outputpath sf) sf.

(** *** The project object *)

Record SubtitleProject := {
  subtitles : PyObject;
  projectfile : option string;
  needsupdate : bool;
  stop_event : option bool;            (* the Event and whether it is set *)
  periodic_update_thread : option Thread;
  periodic_update_interval : option Z;
  include_original : bool;
  mode : ModeFlags;
}.

Definition set_subtitles (o : PyObject) (p : SubtitleProject) :=
  {| subtitles := o; projectfile := projectfile p;
     needsupdate := needsupdate p; stop_event := stop_event p;
     periodic_update_thread := periodic_update_thread p;
     periodic_update_interval := periodic_update_interval p;
     include_original := include_original p; mode := mode p |}.

Definition set_projectfile (f : option string) (p : SubtitleProject) :=
  {| subtitles := subtitles p; projectfile := f;
     needsupdate := needsupdate p; stop_event := stop_event p;
     periodic_update_thread := periodic_update_thread p;
     periodic_update_interval := periodic_update_interval p;
     include_original := include_original p; mode := mode p |}.

Definition set_needsupdate (b : bool) (p : SubtitleProject) :=
  {| subtitles := subtitles p; projectfile := projectfile p;
     needsupdate := b; stop_event := stop_event p;
     periodic_update_thread := periodic_update_thread p;
     periodic_update_interval := periodic_update_interval p;
     include_original := include_original p; mode := mode p |}.

Definition set_mode (m : ModeFlags) (p : SubtitleProject) :=
  {| subtitles := subtitles p; projectfile := projectfile p;
     needsupdate := needsupdate p; stop_event := stop_event p;
     periodic_update_thread := periodic_update_thread p;
     periodic_update_interval := periodic_update_interval p;
     include_original := include_original p; mode := m |}.

Definition set_read_project (b : bool) (m : ModeFlags) : ModeFlags :=
  flags b (write_project m) (update_project m) (load_subtitles m)
    (preview m) (resume m) (reparse m) (retranslate m).

Definition set_write_project (b : bool) (m : ModeFlags) : ModeFlags :=
  flags (read_project m) b (update_project m) (load_subtitles m)
    (preview m) (resume m) (reparse m) (retranslate m).

Definition set_load_subtitles (b : bool) (m : ModeFlags) : ModeFlags :=
  flags (read_project m) (write_project m) (update_project m) b
    (preview m) (resume m) (reparse m) (retranslate m).

(** *** The world and the monad *)

Record World := {
  project : SubtitleProject;          (* self *)
  disk : gmap string string;          (* the files, by normalised path *)
  translator_events : TranslationEvents;  (* translator.events *)
  trace : list Effect;
}.

Definition M : Type -> Type := PyM World.

Definition self : M SubtitleProject := fun w => (Return (project w), w).

Definition update_self (f : SubtitleProject -> SubtitleProject) : M unit :=
  fun w =>
    (Return tt,
     {| project := f (project w); disk := disk w;
        translator_events := translator_events w; trace := trace w |}).

Definition read_disk : M (gmap string string) :=
  fun w => (Return (disk w), w).

Definition write_file (path data : string) : M unit :=
  fun w =>
    (Return tt,
     {| project := project w; disk := <[path := data]> (disk w);
        translator_events := translator_events w;
        trace := trace w ++ [FileWritten path data] |}).

Definition emit (e : Effect) : M unit :=
  fun w =>
    (Return tt,
     {| project := project w; disk := disk w;
        translator_events := translator_events w;
        trace := trace w ++ [e] |}).

Definition update_events (f : TranslationEvents -> TranslationEvents)
  : M unit :=
  fun w =>
    (Return tt,
     {| project := project w; disk := disk w;
        translator_events := f (translator_events w); trace := trace w |}).

(** *** Construction (SubtitleProject.py:17-42, 307-312) *)

(** [_start_autosave_thread]: the stop event, the daemon thread, the
    interval, and the start of the thread. *)
Definition _start_autosave_thread (p : SubtitleProject) : SubtitleProject :=
  {| subtitles := subtitles p; projectfile := projectfile p;
     needsupdate := needsupdate p;
     stop_event := Some false;
     periodic_update_thread := Some {| daemon := true; started := true |};
     periodic_update_interval := Some 20%Z;
     include_original := include_original p; mode := mode p |}.

(** [__init__].  Line 42 is the expression statement
    [self._start_autosave_thread]: it evaluates the bound method and drops
    it; nothing is called. *)
Definition __init__ (options : Options) : SubtitleProject :=
  let p :=
    {| subtitles := PyNone; projectfile := None; needsupdate := false;
       stop_event := None; periodic_update_thread := None;
       periodic_update_interval := None;
       include_original := opt_include_original options;
       mode := resolve_mode (opt_project options) |} in
  if update_project (mode p) && opt_autosave options
  then let _ := _start_autosave_thread in p
  else p.

(** The world a freshly constructed project lives in. *)
Definition new_world (options : Options) (files : gmap string string)
    (ev : TranslationEvents) : World :=
  {| project := __init__ options; disk := files;
     translator_events := ev; trace := [] |}.

(** *** Paths (lines 114-121) *)

Definition GetProjectFilepath (filepath : string) : string :=
  let '(path, ext) := splitext filepath in
  let filepath :=
    if String.eqb ext ".subtrans" then filepath
    else String.append path ".subtrans" in
  normpath filepath.

Definition GetBackupFilepath (filepath : string) : string :=
  String.append (GetProjectFilepath filepath) "-backup".

(** *** SaveTranslation (lines 98-106) *)

(** The call of [self.subtitles.SaveTranslation] sits in a [try] that
    catches every exception: without a [SubtitleFile] the attribute lookup
    fails and is caught, with one the method is called and a failure of it
    is caught. *)
Definition SaveTranslation (outputpath : option string) : M unit :=
  let* p := self in
  match subtitles p with
  | PySubtitleFile sf =>
      let '(ok, sf') := sf_SaveTranslation outputpath sf in
      update_self (set_subtitles (PySubtitleFile sf')) ;;;
      emit (SaveTranslationCalled outputpath ok)
  | _ => ret tt
  end.

(** *** LoadSubtitleFile (lines 123-132) *)

Definition LoadSubtitleFile (filepath : string) : M SubtitleFile :=
  update_self (set_subtitles (PySubtitleFile (new_SubtitleFile filepath))) ;;;
  let* files := read_disk in
  let* sf := of_result (LoadSubtitles files (new_SubtitleFile filepath)) in
  update_self (set_subtitles (PySubtitleFile sf)) ;;;
  ret sf.

(** *** WriteProjectFile (lines 134-169) *)

(** [self.subtitles] where the code goes on to use an attribute of a
    [SubtitleFile]. *)
Definition subtitle_file : M SubtitleFile :=
  let* p := self in
  match subtitles p with
  | PySubtitleFile sf => ret sf
  | _ => raise (AttributeError "object has no such attribute")
  end.

Definition WriteProjectFile (projectfile_arg : option string) : M unit :=
  let* p := self in
  if negb (truthy (subtitles p)) then
    raise (Exception "Can't write project file, no subtitles")
  else
    match subtitles p with
    | PySubtitleFile sf =>
        if bool_decide (scenes sf = []) then
          raise (Exception "Can't write project file, no scenes")
        else
          when (truthy_str projectfile_arg && negb (write_project (mode p)))
            (update_self (fun p =>
               set_mode (set_read_project true
                           (set_write_project true (mode p))) p)) ;;;
          let* target :=
            if negb (truthy_str projectfile_arg) then ret (projectfile p)
            else
              when (negb (truthy_str (projectfile p)))
                (let given := default "" projectfile_arg in
                 update_self
                   (set_projectfile (Some (GetProjectFilepath given))) ;;;
                 update_self (set_subtitles (PySubtitleFile
                   (set_outputpath
                      (Some (GetOutputPath given (target_language sf)))
                      sf)))) ;;;
              ret projectfile_arg in
          if negb (truthy_str target) then
            raise (Exception "No file path provided")
          else
            let target := normpath (default "" target) in
            let* sf := subtitle_file in
            write_file target (encode sf) ;;;
            update_self (set_needsupdate false)
    | _ => raise (Exception "Can't write project file, wrong content type")
    end.

(** *** WriteBackupFile (lines 171-177) *)

Definition WriteBackupFile : M unit :=
  let* p := self in
  if truthy (subtitles p) && truthy_str (projectfile p) then
    WriteProjectFile
      (Some (GetBackupFilepath (default "" (projectfile p))))
  else ret tt.

(** *** ReadProjectFile (lines 179-202) *)

(** The result is [None] (the file is missing or does not decode) or the
    object that is now [self.subtitles].  [open(None)] is a [TypeError],
    which the method does not catch.  The files are kept by normalised path
    (where [WriteProjectFile] puts them): [open(filepath)] opens the file
    that the path names, the one at its normalisation. *)
Definition ReadProjectFile (filepath : option string)
  : M (option SubtitleFile) :=
  let* p := self in
  let filepath := if truthy_str filepath then filepath else projectfile p in
  match filepath with
  | None => raise (TypeError "expected str, bytes or os.PathLike object")
  | Some path =>
      let* files := read_disk in
      match files !! normpath path with
      | None => ret None                      (* FileNotFoundError *)
      | Some data =>
          match decode data with
          | None => ret None                  (* json.JSONDecodeError *)
          | Some sf =>
              update_self (set_subtitles (PySubtitleFile (Sanitise sf))) ;;;
              ret (Some (Sanitise sf))
          end
      end
  end.

(** *** UpdateProjectFile (lines 204-212) *)

Definition UpdateProjectFile : M unit :=
  let* p := self in
  if update_project (mode p) then
    if negb (truthy (subtitles p)) then
      raise (Exception "Unable to update project file, no subtitles")
    else update_self (set_needsupdate true)
  else ret tt.

(** *** UpdateProjectSettings (lines 220-238) *)

(** [all(settings.get(key) == stored.get(key) for key in settings)]:
    a key the stored settings lack reads as [None]. *)
Definition settings_match (new stored : gmap string value) : bool :=
  forallb (fun kv => value_eq kv.2 (default value_None (stored !! kv.1)))
    (map_to_list new).

(** The argument is the dictionary: an [Options] object is replaced by its
    [options] dictionary first (lines 224-225). *)
Definition UpdateProjectSettings (new : gmap string value) : M unit :=
  let* p := self in
  if negb (truthy (subtitles p)) then ret tt
  else
    let* unchanged :=
      match subtitles p with
      | PySubtitleFile sf => ret (settings_match new (settings sf))
      | _ =>
          (* self.subtitles.settings is looked up for the first key *)
          match map_to_list new with
          | [] => ret true
          | _ => raise (AttributeError "object has no attribute 'settings'")
          end
      end in
    if unchanged then ret tt
    else
      let* sf := subtitle_file in
      update_self
        (set_subtitles (PySubtitleFile (sf_UpdateProjectSettings new sf))) ;;;
      let* sf := subtitle_file in
      when (negb (bool_decide (scenes sf = [])))
        (update_self
           (set_subtitles (PySubtitleFile (UpdateOutputPath sf))) ;;;
         WriteProjectFile None).

(** *** The event handlers (lines 321-335) *)

(** [self.events.<ch>(arg)]: the subscribers of the project's own event bus
    are called, and find the project as it is at that moment. *)
Definition forward (ch : Channel) (arg : Payload) : M unit :=
  let* p := self in
  emit (Forwarded ch arg (needsupdate p)).

Definition _on_preprocessed (scenes : Payload) : M unit :=
  let* p := self in
  update_self (set_needsupdate (update_project (mode p))) ;;;
  forward Preprocessed scenes.

Definition _on_batch_translated (batch : Payload) : M unit :=
  let* p := self in
  update_self (set_needsupdate (update_project (mode p))) ;;;
  forward BatchTranslated batch.

Definition _on_scene_translated (scene : Payload) : M unit :=
  SaveTranslation None ;;;
  let* p := self in
  update_self (set_needsupdate (update_project (mode p))) ;;;
  forward SceneTranslated scene.

(** *** The translator *)

(** Calling a slot calls its handlers in subscription order with the
    payload.  A handler of somebody else is recorded in the trace. *)
Definition call_handler (h : Handler) (ch : Channel) (arg : Payload)
  : M unit :=
  match h with
  | self_on_preprocessed => _on_preprocessed arg
  | self_on_batch_translated => _on_batch_translated arg
  | self_on_scene_translated => _on_scene_translated arg
  | foreign_handler id => emit (ForeignHandlerCalled id ch arg)
  end.

Fixpoint call_all (hs : list Handler) (ch : Channel) (arg : Payload)
  : M unit :=
  match hs with
  | [] => ret tt
  | h :: hs' => call_handler h ch arg ;;; call_all hs' ch arg
  end.

Definition fire (ch : Channel) (arg : Payload) : M unit :=
  fun w => call_all (slot ch (translator_events w)) ch arg w.

(** What a call of the translator does, as far as the project can tell: it
    raises events and changes the subtitles it was given, in some order, and
    then returns or raises. *)
Inductive Step :=
| Emit (ch : Channel) (arg : Payload)
| Mutate (f : SubtitleFile -> SubtitleFile).

Record SubtitleTranslator := {
  stop_on_error : bool;
  script : list Step;
  raises : option exn;
}.

Definition run_step (s : Step) : M unit :=
  match s with
  | Emit ch arg => fire ch arg
  | Mutate f =>
      let* p := self in
      match subtitles p with
      | PySubtitleFile sf => update_self (set_subtitles (PySubtitleFile (f sf)))
      | _ => ret tt
      end
  end.

Fixpoint run_script (l : list Step) : M unit :=
  match l with
  | [] => ret tt
  | s :: l' => run_step s ;;; run_script l'
  end.

(** [translator.TranslateSubtitles(...)] or [translator.TranslateScene(...)]. *)
Definition translator_call (t : SubtitleTranslator) : M unit :=
  run_script (script t) ;;;
  match raises t with
  | Some e => raise e
  | None => ret tt
  end.

(** *** TranslateSubtitles (lines 240-273) *)

(** Lines 247-249: prime the project file. *)
Definition prime_project_file : M unit :=
  let* p := self in
  when (write_project (mode p)) (WriteProjectFile None).

(** Lines 252-254 and 258-260. *)
Definition subscribe_run : M unit :=
  update_events (subscribe Preprocessed self_on_preprocessed) ;;;
  update_events (subscribe BatchTranslated self_on_batch_translated) ;;;
  update_events (subscribe SceneTranslated self_on_scene_translated).

Definition unsubscribe_run : M unit :=
  update_events (unsubscribe Preprocessed self_on_preprocessed) ;;;
  update_events (unsubscribe BatchTranslated self_on_batch_translated) ;;;
  update_events (unsubscribe SceneTranslated self_on_scene_translated).

(** Lines 268-273 and 300-305: [except Exception]. *)
Definition rescue {A} (t : SubtitleTranslator) (e : exn) : M A :=
  let* p := self in
  when (truthy (subtitles p) && stop_on_error t) (SaveTranslation None) ;;;
  raise e.

Definition TranslateSubtitles (t : SubtitleTranslator) : M unit :=
  let* p := self in
  if negb (truthy (subtitles p)) then
    raise (Exception "No subtitles to translate")
  else
    prime_project_file ;;;
    try_except
      (subscribe_run ;;;
       translator_call t ;;;
       unsubscribe_run ;;;
       SaveTranslation None)
      (fun e => if is_abort e then raise e else rescue t e).

(** *** TranslateScene (lines 275-305) *)

(** Lines 283-284 and 290-291. *)
Definition subscribe_scene : M unit :=
  update_events (subscribe Preprocessed self_on_preprocessed) ;;;
  update_events (subscribe BatchTranslated self_on_batch_translated).

Definition unsubscribe_scene : M unit :=
  update_events (unsubscribe Preprocessed self_on_preprocessed) ;;;
  update_events (unsubscribe BatchTranslated self_on_batch_translated).

Definition TranslateScene (t : SubtitleTranslator) (scene_number : Z)
    (batch_numbers line_numbers : option (list Z)) : M scene :=
  let* p := self in
  if negb (truthy (subtitles p)) then
    raise (Exception "No subtitles to translate")
  else
    try_except
      (subscribe_scene ;;;
       let* sf := subtitle_file in
       let* sc := of_result (GetScene sf scene_number) in
       translator_call t ;;;
       unsubscribe_scene ;;;
       SaveTranslation None ;;;
       ret sc)
      (fun e => if is_abort e then raise e else rescue t e).

(** *** InitialiseProject (lines 53-96) *)

(** The local variable [subtitles]: not yet assigned, [None] (what a failed
    [ReadProjectFile] returns), or the object [self.subtitles] holds (what
    a successful [ReadProjectFile] and [LoadSubtitleFile] return). *)
Inductive LocalSubtitles := Unbound | BoundNone | BoundSelf.

(** An attribute of the local variable [subtitles] is about to be used. *)
Definition local_subtitles (l : LocalSubtitles) : M SubtitleFile :=
  match l with
  | Unbound =>
      raise (UnboundLocalError
               "cannot access local variable 'subtitles'")
  | BoundNone => raise (AttributeError "'NoneType' object has no attribute")
  | BoundSelf => subtitle_file
  end.

(** Lines 61-65: the project file path, and the check whether the caller
    pointed at a project file.  Returns the normalised [filepath]. *)
Definition InitialiseProject_paths (filepath : string) : M string :=
  let filepath := normpath filepath in
  update_self (set_projectfile (Some (GetProjectFilepath
    (if String.eqb filepath "" then "subtitles" else filepath)))) ;;;
  let* p := self in
  when (bool_decide (projectfile p = Some filepath)
        && negb (read_project (mode p)))
    (update_self (fun p =>
       set_mode (set_write_project true
                   (set_read_project true (mode p))) p)) ;;;
  ret filepath.

(** Lines 67-71: [os.path.exists(self.projectfile)].  The path was set by
    [GetProjectFilepath], which normalises it: it is the key of the file. *)
Definition InitialiseProject_check : M unit :=
  let* p := self in
  let* files := read_disk in
  when (read_project (mode p)
        && negb (bool_decide
                   (is_Some (files !! default "" (projectfile p)))))
    (update_self (fun p =>
       set_mode (set_load_subtitles true
                   (set_read_project false (mode p))) p)).

(** Lines 73-96, with [filepath] already normalised. *)
Definition InitialiseProject_load (filepath : string)
    (outputpath : option string) (write_backup : bool) : M unit :=
  let* p := self in
  let* loc :=
    if read_project (mode p) then
      let* r := ReadProjectFile (projectfile p) in
      match r with
      | Some sf =>
          if negb (bool_decide (scenes sf = [])) then
            update_self (fun p =>
              set_mode (set_load_subtitles false (mode p)) p) ;;;
            when write_backup WriteBackupFile ;;;
            ret BoundSelf
          else
            update_self (fun p =>
              set_mode (set_load_subtitles true (mode p)) p) ;;;
            ret BoundSelf
      | None =>
          update_self (fun p =>
            set_mode (set_load_subtitles true (mode p)) p) ;;;
          ret BoundNone
      end
    else ret Unbound in
  let* p := self in
  let* loc :=
    if load_subtitles (mode p) then
      LoadSubtitleFile filepath ;;; ret BoundSelf
    else ret loc in
  when (truthy_str outputpath)
    (let* sf := local_subtitles loc in
     update_self
       (set_subtitles (PySubtitleFile (set_outputpath outputpath sf)))) ;;;
  let* sf := local_subtitles loc in
  if negb (has_subtitles sf) then
    raise (ValueError (String.append "No subtitles to translate in " filepath))
  else ret tt.

Definition InitialiseProject (filepath : string)
    (outputpath : option string) (write_backup : bool) : M unit :=
  let* filepath := InitialiseProject_paths filepath in
  InitialiseProject_check ;;;
  InitialiseProject_load filepath outputpath write_backup.

(** *** The operations of the class, as one type *)

Inductive Call :=
| call_InitialiseProject (filepath : string) (outputpath : option string)
    (write_backup : bool)
| call_SaveTranslation (outputpath : option string)
| call_LoadSubtitleFile (filepath : string)
| call_WriteProjectFile (projectfile_arg : option string)
| call_WriteBackupFile
| call_ReadProjectFile (filepath : option string)
| call_UpdateProjectFile
| call_UpdateProjectSettings (new : gmap string value)
| call_TranslateSubtitles (t : SubtitleTranslator)
| call_TranslateScene (t : SubtitleTranslator) (scene_number : Z)
    (batch_numbers line_numbers : option (list Z)).

(** Drops the returned value. *)
Definition void {A} (m : M A) : M unit := let* _ := m in ret tt.

Definition run_call (c : Call) : M unit :=
  match c with
  | call_InitialiseProject f o b => InitialiseProject f o b
  | call_SaveTranslation o => SaveTranslation o
  | call_LoadSubtitleFile f => void (LoadSubtitleFile f)
  | call_WriteProjectFile a => WriteProjectFile a
  | call_WriteBackupFile => WriteBackupFile
  | call_ReadProjectFile f => void (ReadProjectFile f)
  | call_UpdateProjectFile => UpdateProjectFile
  | call_UpdateProjectSettings new => UpdateProjectSettings new
  | call_TranslateSubtitles t => TranslateSubtitles t
  | call_TranslateScene t n b l => void (TranslateScene t n b l)
  end.

(** The mode flags no method assigns after [__init__]. *)
Definition fixed_flags (m : ModeFlags) : list bool :=
  [update_project m; preview m; resume m; reparse m; retranslate m].

(** *** What a method leaves alone

    [keeps R m]: the world [m] leaves is related by [R] to the world it
    found, whether [m] returns or raises.  A relation that is reflexive,
    transitive and kept by the elementary updates is kept by every method
    built from them. *)
Definition keeps (R : World -> World -> Prop) {A} (m : M A) : Prop :=
  forall w, R w (m w).2.

Class Frame (R : World -> World -> Prop) : Prop := {
  frame_refl : forall w, R w w;
  frame_trans : forall a b c, R a b -> R b c -> R a c;
  frame_subtitles :
    forall sf, keeps R (update_self (set_subtitles (PySubtitleFile sf)));
  frame_projectfile : forall f, keeps R (update_self (set_projectfile f));
  frame_needsupdate : forall b, keeps R (update_self (set_needsupdate b));
  frame_emit : forall e, keeps R (emit e);
  frame_write_file : forall path data, keeps R (write_file path data);
  frame_read_write :
    keeps R (update_self (fun p =>
      set_mode (set_read_project true (set_write_project true (mode p))) p));
  frame_load :
    forall b, keeps R (update_self (fun p =>
      set_mode (set_load_subtitles b (mode p)) p));
}.

(** The relations the proofs below use: the flags no method assigns are the
    same; the translator's event slots are the same; the content is still a
    [SubtitleFile]; the read and write flags, once on, stay on. *)
Definition same_fixed_flags (w w' : World) : Prop :=
  fixed_flags (mode (project w')) = fixed_flags (mode (project w)).

Definition same_events (w w' : World) : Prop :=
  translator_events w' = translator_events w.

Definition is_subtitle_file (o : PyObject) : Prop :=
  match o with
  | PySubtitleFile _ => True
  | _ => False
  end.

Definition still_subtitle_file (w w' : World) : Prop :=
  is_subtitle_file (subtitles (project w)) ->
  is_subtitle_file (subtitles (project w')).

Definition read_write_stay (w w' : World) : Prop :=
  (read_project (mode (project w)) = true ->
   read_project (mode (project w')) = true) /\
  (write_project (mode (project w)) = true ->
   write_project (mode (project w')) = true).

(** *** The worlds of a translation run *)

(** The world in which [TranslateSubtitles] calls the translator (the project
    file is primed and the three handlers are subscribed), and the one in
    which [TranslateScene] does. *)
Definition entering_run (w : World) : World :=
  (subscribe_run (prime_project_file w).2).2.

Definition entering_scene (w : World) : World :=
  (subscribe_scene w).2.

End Model.

Arguments SubtitleFile : clear implicits.
Arguments PyObject : clear implicits.
Arguments Payload : clear implicits.
Arguments Effect : clear implicits.
Arguments Collaborators : clear implicits.
Arguments SubtitleProject : clear implicits.
Arguments World : clear implicits.
Arguments Step : clear implicits.
Arguments SubtitleTranslator : clear implicits.
Arguments Call : clear implicits.

(** ** The rest of the class, and the script that drives it *)

Section Rest.

Context {value scene batch : Type} {collab : Collaborators value scene}.

(** Truthiness of a settings value ([if value] in [GetProjectSettings]). *)
Variable value_truthy : value -> bool.

(** *** GetProjectSettings (SubtitleProject.py:214-218) *)

(** [{key : value for key, value in self.subtitles.settings.items() if value}]. *)
Definition GetProjectSettings
  : M (value:=value) (scene:=scene) (batch:=batch) (gmap string value) :=
  let* sf := subtitle_file in
  ret (filter (fun kv : string * value => value_truthy kv.2 = true) (settings sf)).

(** *** One pass of the autosave loop (lines 316-318)

    The body of the loop of [_background_autosave] between two waits, as it
    runs when no other thread acts meanwhile: the dirty flag is cleared
    first, the project file is written after. *)
Definition _background_autosave_pass
  : M (value:=value) (scene:=scene) (batch:=batch) unit :=
  let* p := self in
  when (needsupdate p)
    (update_self (set_needsupdate false) ;;; WriteProjectFile None).

(** *** gpt-subtrans.py, lines 112-125

    The project is constructed from the options ([new_world]); then the
    script initialises it on the input file, hands it the options as
    settings, translates, and writes the project file if the write flag is
    on.  The [except] of lines 127-129 prints the exception and raises it
    again. *)
Definition gpt_subtrans (input : string) (output : option string)
    (writebackup : bool) (settings : gmap string value)
    (translator : SubtitleTranslator value scene batch)
  : M (value:=value) (scene:=scene) (batch:=batch) unit :=
  InitialiseProject input output writebackup ;;;
  UpdateProjectSettings settings ;;;
  TranslateSubtitles translator ;;;
  let* p := self in
  when (write_project (mode p)) (WriteProjectFile None).

(** *** The outcome of an initialisation *)

(** The project file path [InitialiseProject] derives from its argument
    (lines 61-62). *)
Definition project_path (filepath : string) : string :=
  GetProjectFilepath
    (if String.eqb (normpath filepath) "" then "subtitles"
     else normpath filepath).

(** The world [w] with the project file path set, the given mode flags, and
    the given content, its output path replaced when the caller gave one:
    no file written, no effect, the translator untouched. *)
Definition initialised (w : World value scene batch) (filepath : string)
    (m : ModeFlags) (content : SubtitleFile value scene)
    (outputpath : option string) : World value scene batch :=
  {| project :=
       set_mode m
         (set_subtitles
            (PySubtitleFile
               (if truthy_str outputpath then set_outputpath outputpath content
                else content))
            (set_projectfile (Some (project_path filepath)) (project w)));
     disk := disk w;
     translator_events := translator_events w;
     trace := trace w |}.

(** The flags after a write that was given a path (lines 148-150). *)
Definition written_with_path (m : ModeFlags) : ModeFlags :=
  if write_project m then m
  else set_read_project true (set_write_project true m).

(** *** Invariants

    [preserves P m]: if [P] holds of the world [m] finds, it holds of the
    world [m] leaves, whether [m] returns or raises. *)
Definition preserves (P : World value scene batch -> Prop) {A} (m : M A)
  : Prop :=
  forall w, P w -> P (m w).2.

(** A handler of this project, as opposed to one of somebody else. *)
Definition is_self (h : Handler) : bool :=
  match h with
  | foreign_handler _ => false
  | _ => true
  end.

(** Every slot of the translator holds a handler of this project. *)
Definition listening (ev : TranslationEvents) : Prop :=
  forall ch, existsb is_self (slot ch ev) = true.

(** The dirty flag is what the last event handled made it: the update flag. *)
Definition marked (w : World value scene batch) : Prop :=
  needsupdate (project w) = update_project (mode (project w)).

(** The project file was not touched and the write flag is off. *)
Definition unwritten (files : gmap string string) (w : World value scene batch)
  : Prop :=
  disk w = files /\ write_project (mode (project w)) = false.

(** The write flag has the value [c]. *)
Definition write_flag (c : bool) (w : World value scene batch) : Prop :=
  write_project (mode (project w)) = c.

End Rest.

(** ** [os.path] on POSIX

    [posixpath.splitext] and [posixpath.normpath], to run the model on
    concrete paths. *)
Module Posix.

Definition is_char (c : ascii) (x : ascii) : bool := Ascii.eqb c x.

(** [p.rfind(c)], with -1 when the character does not occur. *)
Definition rfind (c : ascii) (p : list ascii) : Z :=
  (fix go (l : list ascii) (i : Z) (found : Z) : Z :=
     match l with
     | [] => found
     | x :: l' => go l' (i + 1)%Z (if is_char c x then i else found)
     end) p 0%Z (-1)%Z.

(** [genericpath._splitext]: the extension starts at the last dot of the
    last component, unless only dots stand before it in that component. *)
Definition splitext (p : string) : string * string :=
  let l := list_ascii_of_string p in
  let sepIndex := rfind "/"%char l in
  let dotIndex := rfind "."%char l in
  let before_dot :=
    drop (Z.to_nat (sepIndex + 1)) (take (Z.to_nat dotIndex) l) in
  if (sepIndex <? dotIndex)%Z
     && existsb (fun x => negb (is_char "."%char x)) before_dot
  then (string_of_list_ascii (take (Z.to_nat dotIndex) l),
        string_of_list_ascii (drop (Z.to_nat dotIndex) l))
  else (p, "").

(** [p.split('/')]. *)
Fixpoint split_slash (cur : list ascii) (l : list ascii) : list string :=
  match l with
  | [] => [string_of_list_ascii (rev cur)]
  | x :: l' =>
      if is_char "/"%char x
      then string_of_list_ascii (rev cur) :: split_slash [] l'
      else split_slash (x :: cur) l'
  end.

(** The loop of [normpath] over the components; [new_comps] is kept with its
    last element first. *)
Fixpoint collapse (initial_slashes : nat) (new_comps : list string)
    (comps : list string) : list string :=
  match comps with
  | [] => rev new_comps
  | comp :: comps' =>
      if String.eqb comp "" || String.eqb comp "." then
        collapse initial_slashes new_comps comps'
      else if negb (String.eqb comp "..")
              || (Nat.eqb initial_slashes 0
                  && match new_comps with [] => true | _ => false end)
              || match new_comps with
                 | last :: _ => String.eqb last ".."
                 | [] => false
                 end
      then collapse initial_slashes (comp :: new_comps) comps'
      else collapse initial_slashes (tl new_comps) comps'
  end.

Fixpoint join_slash (l : list string) : string :=
  match l with
  | [] => ""
  | [x] => x
  | x :: l' => String.append x (String "/"%char (join_slash l'))
  end.

Definition normpath (path : string) : string :=
  if String.eqb path "" then "."
  else
    let l := list_ascii_of_string path in
    let initial_slashes :=
      match l with
      | "/"%char :: "/"%char :: "/"%char :: _ => 1
      | "/"%char :: "/"%char :: _ => 2
      | "/"%char :: _ => 1
      | _ => 0
      end%nat in
    let joined := join_slash (collapse initial_slashes [] (split_slash [] l)) in
    let path :=
      String.append (string_of_list_ascii (replicate initial_slashes "/"%char))
        joined in
    if String.eqb path "" then "." else path.

(** ** [normpath] is idempotent *)

Definition slashes (l : list ascii) : nat :=
  match l with
  | "/"%char :: "/"%char :: "/"%char :: _ => 1
  | "/"%char :: "/"%char :: _ => 2
  | "/"%char :: _ => 1
  | _ => 0
  end%nat.

Definition assemble (n : nat) (comps : list string) : string :=
  let path :=
    String.append (string_of_list_ascii (replicate n "/"%char))
      (join_slash comps) in
  if String.eqb path "" then "." else path.

Lemma normpath_unfold path :
  normpath path
  = if String.eqb path "" then "."
    else let l := list_ascii_of_string path in
         assemble (slashes l) (collapse (slashes l) [] (split_slash [] l)).
Proof. reflexivity. Qed.


Definition plain (s : string) : Prop :=
  Forall (fun c => is_char "/"%char c = false) (list_ascii_of_string s).

Definition valid (s : string) : Prop := s <> "" /\ s <> "." /\ plain s.

(** What [collapse] keeps of the components: no empty one, no [.], and [..]
    only in front, and only for a relative path. *)
Definition collapsed (n : nat) (comps : list string) : Prop :=
  Forall valid comps /\
  exists k rest,
    comps = replicate k ".." ++ rest /\ Forall (fun s => s <> "..") rest /\
    (n <> 0 -> k = 0).

Lemma list_ascii_of_string_append s1 s2 :
  list_ascii_of_string (String.append s1 s2)
  = list_ascii_of_string s1 ++ list_ascii_of_string s2.
Proof. induction s1 as [|c s1 IH]; simpl; [reflexivity | now rewrite IH]. Qed.

Lemma split_slash_plain l1 : forall cur l2,
  Forall (fun c => is_char "/"%char c = false) l1 ->
  split_slash cur (l1 ++ l2) = split_slash (rev l1 ++ cur) l2.
Proof.
  induction l1 as [|c l1 IH]; intros cur l2 Hl; [reflexivity |].
  inversion Hl as [|? ? Hc Hl1]; subst. cbn [app split_slash rev].
  rewrite Hc, IH by assumption. now rewrite <- app_assoc.
Qed.

Lemma split_slash_components l : forall cur,
  Forall (fun c => is_char "/"%char c = false) cur ->
  Forall plain (split_slash cur l).
Proof.
  assert (Hcur : forall cur,
            Forall (fun c => is_char "/"%char c = false) cur ->
            plain (string_of_list_ascii (rev cur))).
  { intros cur Hcur. unfold plain.
    rewrite list_ascii_of_string_of_list_ascii.
    now apply List.Forall_rev. }
  induction l as [|c l IH]; intros cur Hc; cbn [split_slash].
  - constructor; [now apply Hcur | constructor].
  - destruct (is_char "/"%char c) eqn:E.
    + constructor; [now apply Hcur | apply IH; constructor].
    + apply IH. now constructor.
Qed.

Lemma split_slash_join comps :
  comps <> [] -> Forall plain comps ->
  split_slash [] (list_ascii_of_string (join_slash comps)) = comps.
Proof.
  induction comps as [|x comps IH]; intros Hne Hp; [congruence |].
  inversion Hp as [|? ? Hx Hcomps]; subst.
  destruct comps as [|y comps].
  - simpl. rewrite <- (app_nil_r (list_ascii_of_string x)).
    rewrite split_slash_plain by exact Hx. simpl.
    now rewrite app_nil_r, rev_involutive, string_of_list_ascii_of_string.
  - change (join_slash (x :: y :: comps))
      with (String.append x (String "/"%char (join_slash (y :: comps)))).
    rewrite list_ascii_of_string_append, split_slash_plain by exact Hx.
    simpl list_ascii_of_string. cbn [split_slash is_char Ascii.eqb].
    simpl Ascii.eqb. cbn iota.
    rewrite app_nil_r, rev_involutive, string_of_list_ascii_of_string.
    f_equal. apply IH; [discriminate | assumption].
Qed.


Definition stacked (n : nat) (new_comps : list string) : Prop :=
  Forall valid new_comps /\
  exists k rest,
    new_comps = rest ++ replicate k ".." /\
    Forall (fun s => s <> "..") rest /\
    (n <> 0 -> k = 0).

Lemma rev_replicate {A} k (x : A) : rev (replicate k x) = replicate k x.
Proof.
  induction k as [|k IH]; [reflexivity |].
  cbn [replicate rev]. rewrite IH. clear IH.
  induction k as [|k IH]; [reflexivity |]. cbn [replicate app]. now rewrite IH.
Qed.

Lemma valid_dotdot : valid "..".
Proof.
  repeat split; try discriminate.
  repeat constructor.
Qed.

Lemma collapse_collapsed n comps : forall new_comps,
  Forall plain comps -> stacked n new_comps ->
  collapsed n (collapse n new_comps comps).
Proof.
  induction comps as [|comp comps IH]; intros acc Hp [Hv (k & rest & -> & Hr & Hk)].
  - cbn [collapse]. split; [now apply List.Forall_rev |].
    exists k, (rev rest). rewrite rev_app_distr, rev_replicate.
    repeat split; [now apply List.Forall_rev | exact Hk].
  - inversion Hp as [|? ? Hcomp Hcomps]; subst. cbn [collapse].
    destruct (String.eqb comp "") eqn:E0; cbn [orb].
    { apply IH; [assumption |]. split; [assumption |]. now exists k, rest. }
    destruct (String.eqb comp ".") eqn:E1.
    { apply IH; [assumption |]. split; [assumption |]. now exists k, rest. }
    apply String.eqb_neq in E0, E1.
    assert (Hvalid : valid comp) by (repeat split; assumption).
    destruct (String.eqb comp "..") eqn:E2; cbn [negb orb].
    + apply String.eqb_eq in E2. subst comp.
      destruct rest as [|a rest]; cbn [app].
      * destruct k as [|k]; cbn [replicate].
        -- rewrite andb_true_r, orb_false_r.
           destruct n as [|n]; cbn [Nat.eqb].
           ++ apply IH; [assumption |]. split; [repeat constructor; assumption |].
              exists 1, []. repeat split; [constructor | congruence].
           ++ cbn [tl]. apply IH; [assumption |]. split; [constructor |].
              exists 0, []. repeat split; constructor.
        -- rewrite andb_false_r. cbn [orb String.eqb Ascii.eqb].
           simpl String.eqb. cbn iota.
           apply IH; [assumption |].
           split; [constructor; [exact valid_dotdot | assumption] |].
           exists (S (S k)), []. repeat split; [constructor |].
           intros Hn. specialize (Hk Hn). discriminate.
      * rewrite andb_false_r. cbn [orb].
        inversion Hr as [|? ? Ha Hrest]; subst.
        apply String.eqb_neq in Ha. rewrite Ha. cbn [tl].
        apply IH; [assumption |].
        inversion Hv; subst. split; [assumption |]. now exists k, rest.
    + apply String.eqb_neq in E2.
      apply IH; [assumption |]. split; [now constructor |].
      exists k, (comp :: rest). repeat split; [now constructor | exact Hk].
Qed.

Lemma collapse_pushes n comps : forall new_comps,
  Forall valid comps -> Forall (fun s => s <> "..") comps ->
  collapse n new_comps comps = rev new_comps ++ comps.
Proof.
  induction comps as [|comp comps IH]; intros acc Hv Hd; cbn [collapse].
  - now rewrite app_nil_r.
  - inversion Hv as [|? ? (H0 & H1 & _) Hv']; subst.
    inversion Hd as [|? ? H2 Hd']; subst.
    apply String.eqb_neq in H0, H1, H2. rewrite H0, H1, H2. cbn [negb orb].
    rewrite IH by assumption. cbn [rev]. now rewrite <- app_assoc.
Qed.

Lemma collapse_dots k : forall m rest,
  collapse 0 (replicate m "..") (replicate k ".." ++ rest)
  = collapse 0 (replicate (k + m) "..") rest.
Proof.
  induction k as [|k IH]; intros m rest; [reflexivity |].
  cbn [replicate app collapse].
  change (String.eqb ".." "") with false.
  change (String.eqb ".." ".") with false.
  change (String.eqb ".." "..") with true.
  cbn [negb orb Nat.eqb andb].
  replace (match replicate m ".." with [] => true | _ :: _ => false end
           || match replicate m ".." with
              | [] => false
              | last :: _ => String.eqb last ".."
              end) with true by (destruct m; reflexivity).
  change (".." :: replicate m "..") with (replicate (S m) "..").
  rewrite IH. f_equal. f_equal. now rewrite Nat.add_succ_r.
Qed.

Lemma collapse_fixed n comps :
  collapsed n comps -> collapse n [] comps = comps.
Proof.
  intros [Hv (k & rest & -> & Hr & Hk)].
  assert (Hrest : Forall valid rest).
  { apply Forall_app in Hv. tauto. }
  destruct n as [|n].
  - change (@nil string) with (replicate 0 "..") at 1.
    rewrite collapse_dots, collapse_pushes by assumption.
    now rewrite rev_replicate, Nat.add_0_r.
  - rewrite Hk by discriminate. cbn [replicate app].
    now rewrite collapse_pushes by assumption.
Qed.


Lemma slashes_cases l : slashes l = 0 \/ slashes l = 1 \/ slashes l = 2.
Proof.
  destruct l as [|[[] [] [] [] [] [] [] []] l]; cbn; auto.
  destruct l as [|[[] [] [] [] [] [] [] []] l]; cbn; auto.
  destruct l as [|[[] [] [] [] [] [] [] []] l]; cbn; auto.
Qed.

Lemma slashes_0 c l : is_char "/"%char c = false -> slashes (c :: l) = 0.
Proof. destruct c as [[] [] [] [] [] [] [] []]; cbn; congruence. Qed.

Lemma slashes_1 c l :
  is_char "/"%char c = false -> slashes ("/"%char :: c :: l) = 1.
Proof. destruct c as [[] [] [] [] [] [] [] []]; cbn; congruence. Qed.

Lemma slashes_2 c l :
  is_char "/"%char c = false -> slashes ("/"%char :: "/"%char :: c :: l) = 2.
Proof. destruct c as [[] [] [] [] [] [] [] []]; cbn; congruence. Qed.

Lemma join_slash_starts x comps :
  valid x ->
  exists c rest,
    join_slash (x :: comps) = String c rest /\ is_char "/"%char c = false.
Proof.
  intros (Hne & _ & Hp). destruct x as [|c x]; [congruence |].
  inversion Hp as [|? ? Hc _]; subst.
  destruct comps as [|y comps]; cbn [join_slash String.append]; eauto.
Qed.

Lemma normpath_assemble n comps :
  n = 0 \/ n = 1 \/ n = 2 -> collapsed n comps ->
  normpath (assemble n comps) = assemble n comps.
Proof.
  intros Hn Hc. destruct comps as [|x comps].
  - destruct Hn as [-> | [-> | ->]]; reflexivity.
  - pose proof Hc as [Hv _]. inversion Hv as [|? ? Hx Hcomps]; subst.
    destruct (join_slash_starts x comps Hx) as (c & rest & Hj & Hslash).
    assert (Hplain : Forall plain (x :: comps)).
    { eapply Forall_impl; [exact Hv |]. intros s (_ & _ & Hs). exact Hs. }
    pose proof (split_slash_join (x :: comps) ltac:(discriminate) Hplain)
      as Hsplit.
    pose proof (collapse_fixed n (x :: comps) Hc) as Hfix.
    destruct Hn as [-> | [-> | ->]].
    + assert (Ha : assemble 0 (x :: comps) = String c rest).
      { unfold assemble. rewrite Hj. reflexivity. }
      rewrite Ha, normpath_unfold.
      change (String.eqb (String c rest) "") with false. cbv iota zeta.
      change (list_ascii_of_string (String c rest))
        with (c :: list_ascii_of_string rest).
      rewrite (slashes_0 _ _ Hslash).
      change (c :: list_ascii_of_string rest)
        with (list_ascii_of_string (String c rest)).
      rewrite <- Hj, Hsplit, Hfix, Hj. exact Ha.
    + assert (Ha : assemble 1 (x :: comps) = String "/"%char (String c rest)).
      { unfold assemble. rewrite Hj. reflexivity. }
      rewrite Ha, normpath_unfold.
      change (String.eqb (String "/"%char (String c rest)) "") with false.
      cbv iota zeta.
      change (list_ascii_of_string (String "/"%char (String c rest)))
        with ("/"%char :: c :: list_ascii_of_string rest).
      rewrite (slashes_1 _ _ Hslash).
      change (split_slash [] ("/"%char :: c :: list_ascii_of_string rest))
        with ("" :: split_slash [] (list_ascii_of_string (String c rest))).
      rewrite <- Hj, Hsplit.
      change (collapse 1 [] ("" :: x :: comps))
        with (collapse 1 [] (x :: comps)).
      rewrite Hfix, Hj. exact Ha.
    + assert (Ha : assemble 2 (x :: comps)
                   = String "/"%char (String "/"%char (String c rest))).
      { unfold assemble. rewrite Hj. reflexivity. }
      rewrite Ha, normpath_unfold.
      change (String.eqb (String "/"%char (String "/"%char (String c rest))) "")
        with false.
      cbv iota zeta.
      change (list_ascii_of_string
                (String "/"%char (String "/"%char (String c rest))))
        with ("/"%char :: "/"%char :: c :: list_ascii_of_string rest).
      rewrite (slashes_2 _ _ Hslash).
      change (split_slash []
                ("/"%char :: "/"%char :: c :: list_ascii_of_string rest))
        with ("" :: "" :: split_slash [] (list_ascii_of_string (String c rest))).
      rewrite <- Hj, Hsplit.
      change (collapse 2 [] ("" :: "" :: x :: comps))
        with (collapse 2 [] (x :: comps)).
      rewrite Hfix, Hj. exact Ha.
Qed.

(** [os.path.normpath] of a normalised path is that path. *)
Lemma normpath_normpath path : normpath (normpath path) = normpath path.
Proof.
  rewrite (normpath_unfold path).
  destruct (String.eqb path ""); [reflexivity |]. cbv zeta.
  apply normpath_assemble; [apply slashes_cases |].
  apply collapse_collapsed.
  - apply split_slash_components. constructor.
  - split; [constructor |]. exists 0, []. repeat split; constructor.
Qed.

End Posix.


(** ** A concrete setting

    Collaborators simple enough to run: settings hold strings (or [None]),
    a scene or a batch is its number, and a project file is either the text
    of a project with one scene, the text of a project without scenes, or
    something that does not decode. *)
Module Sample.

Definition value : Type := option string.
Definition scene : Type := Z.
Definition batch : Type := Z.

Definition value_eqb (a b : value) : bool := bool_decide (a = b).

Definition file (src : option string) (sc : list scene)
    (st : gmap string value) (out : option string) (has : bool)
  : SubtitleFile value scene :=
  {| sourcepath := src; scenes := sc; settings := st; outputpath := out;
     target_language := Some "English"; has_subtitles := has |}.

Definition encode_of (sf : SubtitleFile value scene) : string :=
  match scenes sf with
  | [] => "{}"
  | _ => "{scenes}"
  end.

(** What the project file of the examples holds. *)
Definition project_content : SubtitleFile value scene :=
  file (Some "film.srt") [1%Z] {[ "model" := Some "gpt-4" ]} None true.

Definition decode_of (data : string) : option (SubtitleFile value scene) :=
  if String.eqb data "{scenes}" then Some project_content
  else if String.eqb data "{}" then
    Some (file (Some "film.srt") [] ∅ None false)
  else None.

Definition LoadSubtitles_of (files : gmap string string)
    (sf : SubtitleFile value scene) : Result (SubtitleFile value scene) :=
  match sourcepath sf ≫= (fun path => files !! Posix.normpath path) with
  | Some data =>
      Return (file (sourcepath sf) (scenes sf) (settings sf) (outputpath sf)
                (negb (String.eqb data "")))
  | None => Raise (ValueError "cannot read the subtitles")
  end.

Definition SaveTranslation_of (o : option string)
    (sf : SubtitleFile value scene) : bool * SubtitleFile value scene :=
  match o, outputpath sf with
  | Some path, _ => (true, set_outputpath (Some path) sf)
  | None, Some _ => (true, sf)
  | None, None => (false, sf)
  end.

Definition GetScene_of (sf : SubtitleFile value scene) (n : Z)
  : Result scene :=
  if bool_decide (n ∈ scenes sf) then Return n
  else Raise (ValueError "Scene does not exist").

Definition collaborators : Collaborators value scene :=
  {| value_eq := value_eqb;
     value_None := None;
     normpath := Posix.normpath;
     normpath_idempotent := Posix.normpath_normpath;
     splitext := Posix.splitext;
     GetOutputPath := fun path _ =>
       String.append (Posix.splitext path).1 ".translated.srt";
     encode := encode_of;
     decode := decode_of;
     new_SubtitleFile := fun path => file (Some path) [] ∅ None false;
     LoadSubtitles := LoadSubtitles_of;
     Sanitise := fun sf => sf;
     sf_SaveTranslation := SaveTranslation_of;
     updated_settings := fun new sf => new ∪ settings sf;
     default_outputpath := fun sf =>
       (fun path => String.append (Posix.splitext path).1 ".translated.srt")
         <$> sourcepath sf;
     GetScene := GetScene_of |}.

Definition no_handlers : TranslationEvents :=
  {| preprocessed := []; batch_translated := []; scene_translated := [] |}.

(** The files of the examples: a source file and, beside it, a project
    file with one scene. *)
Definition files : gmap string string :=
  {[ "film.srt" := "1 00:00:01 Hello"; "film.subtrans" := "{scenes}" ]}.

Definition options_of (project_mode : option string) (autosave : bool)
  : Options :=
  {| opt_project := project_mode; opt_autosave := autosave;
     opt_include_original := false |}.

Definition start (project_mode : option string) (autosave : bool)
  : World value scene batch :=
  new_world (options_of project_mode autosave) files no_handlers.

(** The world a call leaves, and its outcome. *)
Definition run (c : Call value scene batch) (w : World value scene batch)
  : World value scene batch :=
  (run_call (collab:=collaborators) c w).2.

Definition outcome (c : Call value scene batch) (w : World value scene batch)
  : Result unit :=
  (run_call (collab:=collaborators) c w).1.

(** A project initialised on the source file "film.srt": with a mode that
    reads, the content comes from the project file beside it. *)
Definition ready (project_mode : option string) : World value scene batch :=
  run (call_InitialiseProject "film.srt" None false) (start project_mode false).

(** A project whose content was read from the project file directly, by
    [ReadProjectFile]: it has scenes and no project file path. *)
Definition loaded : World value scene batch :=
  run (call_ReadProjectFile (Some "film.subtrans")) (start None false).

(** A project whose content was loaded from the source file directly, by
    [LoadSubtitleFile]: it has no scenes yet. *)
Definition unbatched : World value scene batch :=
  run (call_LoadSubtitleFile "film.srt") (start None false).

(** A project whose content is not a [SubtitleFile]. *)
Definition mistyped : World value scene batch :=
  {| project := set_subtitles (PyOther true) (project (start None false));
     disk := files; translator_events := no_handlers; trace := [] |}.

(** A disk with the source file only, and one whose project file does not
    decode. *)
Definition source_only : gmap string string :=
  {[ "film.srt" := "1 00:00:01 Hello" ]}.

Definition unusable_project : gmap string string :=
  {[ "film.srt" := "1 00:00:01 Hello"; "film.subtrans" := "{scenes" ]}.

Definition start_on (disk_files : gmap string string)
    (project_mode : option string) : World value scene batch :=
  new_world (options_of project_mode false) disk_files no_handlers.

(** What [LoadSubtitles] makes of "film.srt": subtitles, and no scenes yet. *)
Definition source_content : SubtitleFile value scene :=
  file (Some "film.srt") [] ∅ None true.

(** A project that was marked dirty before its content had scenes. *)
Definition dirty_unbatched : World value scene batch :=
  run call_UpdateProjectFile (ready (Some "write")).

(** A settings value is truthy when it is a non-empty string. *)
Definition value_truthy (v : value) : bool :=
  match v with
  | Some s => negb (String.eqb s "")
  | None => false
  end.

(** A translator that translates one scene and returns or raises. *)
Definition translator (stop : bool) (e : option exn)
  : SubtitleTranslator value scene batch :=
  {| stop_on_error := stop;
     script := [Emit Preprocessed (Scenes [1%Z]);
                Emit BatchTranslated (Batch 1%Z);
                Emit SceneTranslated (Scene 1%Z)];
     raises := e |}.

End Sample.


(** * Properties *)

(** ** The mode resolver *)

Lemma str_in_In (x : string) (l : list string) :
  str_in x l = true <-> In x l.
Proof.
  unfold str_in. rewrite existsb_exists. split.
  - intros (y & Hy & Heq). apply String.eqb_eq in Heq. now subst.
  - intros Hin. exists x. split; [assumption | apply String.eqb_refl].
Qed.

Lemma str_in_not_In (x : string) (l : list string) :
  ~ In x l -> str_in x l = false.
Proof.
  intros Hn. destruct (str_in x l) eqn:E; [|reflexivity].
  apply str_in_In in E. contradiction.
Qed.

Lemma normalise_mode_Some (s : string) :
  normalise_mode (Some s) = Some (lower s).
Proof. destruct s; reflexivity. Qed.

(** C1, as amended: for every mode string the constructor derives, from its
    lower case, the flags of the table of section 4.1 with two changes.
    "preview" yields write, update, load-source and preview (load-source is
    true, not false).  For the empty string the seven flags other than
    load-source are false (nothing is said of load-source).  An absent mode
    ([None]) yields load-source only, and a string that is neither empty nor
    one of the eight mode names yields all-false flags. *)
Theorem resolve_mode_table (s : string) :
  let m := lower s in
  let f := resolve_mode (Some s) in
  let T := true in
  let F := false in
  (m = "true" -> f = flags T T T T F F F F) /\
  (m = "write" -> f = flags F T T T F F F F) /\
  (m = "read" -> f = flags T F F F F F F F) /\
  (m = "reload" -> f = flags F F F T F F F F) /\
  (m = "resume" -> f = flags T T T F F T F F) /\
  (m = "retranslate" -> f = flags T T T F F F F T) /\
  (m = "reparse" -> f = flags T T F F F F T F) /\
  (m = "preview" -> f = flags F T T T T F F F) /\
  (m = "" ->
   [read_project f; write_project f; update_project f; preview f; resume f;
    reparse f; retranslate f] = [F; F; F; F; F; F; F]) /\
  (m <> "" -> ~ In m mode_names -> f = flags F F F F F F F F) /\
  resolve_mode None = flags F F F T F F F F.
Proof.
  cbv zeta. unfold resolve_mode. rewrite normalise_mode_Some.
  repeat match goal with |- _ /\ _ => split end;
    try (intros ->; reflexivity); try reflexivity.
  intros _ Hn. unfold mode_in.
  rewrite !str_in_not_In; [reflexivity | ..];
    intros Hin; apply Hn; unfold mode_names; simpl in *; tauto.
Qed.

Section Proofs.

Context {value scene batch : Type} `{!Collaborators value scene}.

Implicit Types w : World value scene batch.
Implicit Types sf : SubtitleFile value scene.
Implicit Types p : SubtitleProject value scene.
Implicit Types new : gmap string value.

(** ** Construction *)

(** C4 (what the code does): whatever the options, and so also when update
    mode is active and autosave is enabled, the constructed project has no
    stop event and no autosave thread: the scheduler is never started.  The
    state [_start_autosave_thread] would have produced is a different one. *)
Theorem init_never_starts_autosave (options : Options) :
  let p : SubtitleProject value scene := __init__ options in
  stop_event p = None /\
  periodic_update_thread p = None /\
  _start_autosave_thread p <> p.
Proof.
  cbv zeta. unfold __init__.
  destruct (update_project _ && opt_autosave options);
    (split; [reflexivity | split; [reflexivity | discriminate]]).
Qed.

(** ** The project store *)

Lemma truthy_str_Some (s : string) : s <> "" -> truthy_str (Some s) = true.
Proof. destruct s; [congruence | reflexivity]. Qed.

(** C2: [WriteProjectFile] raises when there is no content, when the content
    is not a [SubtitleFile], and when the content has no scenes; the world it
    leaves is the world it found: no file was opened or written, and nothing
    else changed either. *)
Theorem write_project_file_preconditions (projectfile_arg : option string) w :
  subtitles (project w) = PyNone \/
  (exists b, subtitles (project w) = PyOther b) \/
  (exists sf, subtitles (project w) = PySubtitleFile sf /\ scenes sf = []) ->
  exists msg, WriteProjectFile projectfile_arg w = (Raise (Exception msg), w).
Proof.
  intros [Hs | [[b Hs] | (sf & Hs & Hsc)]];
    unfold WriteProjectFile, bind, self; simpl; rewrite Hs; simpl.
  - eexists; reflexivity.
  - destruct b; simpl; eexists; reflexivity.
  - rewrite bool_decide_eq_true_2 by assumption. eexists; reflexivity.
Qed.

(** ** Settings *)

Lemma settings_match_true new (stored : gmap string value) :
  (forall k v, new !! k = Some v ->
               value_eq v (default value_None (stored !! k)) = true) ->
  settings_match new stored = true.
Proof.
  intros Hall. unfold settings_match. apply forallb_forall.
  intros [k v] Hin. apply list_elem_of_In, elem_of_map_to_list in Hin.
  simpl. now apply Hall.
Qed.

Lemma settings_match_false new (stored : gmap string value) k v :
  new !! k = Some v ->
  value_eq v (default value_None (stored !! k)) = false ->
  settings_match new stored = false.
Proof.
  intros Hk Hne. unfold settings_match.
  destruct (forallb _ _) eqn:E; [|reflexivity].
  rewrite forallb_forall in E.
  specialize (E (k, v)). simpl in E. rewrite E in Hne; [discriminate |].
  apply list_elem_of_In, elem_of_map_to_list. exact Hk.
Qed.

(** C10: without content, [UpdateProjectSettings] returns and leaves the
    world as it found it, whatever the settings. *)
Theorem update_settings_without_content new w :
  subtitles (project w) = PyNone ->
  UpdateProjectSettings new w = (Return tt, w).
Proof.
  intros Hs. unfold UpdateProjectSettings, bind, self. simpl.
  rewrite Hs. reflexivity.
Qed.

(** C7, as amended: when every supplied key already equals the stored value,
    [UpdateProjectSettings] returns and leaves the world as it found it.
    When a key differs, the content has scenes and the project file path is
    set, it returns after replacing the settings, recomputing the output
    path and writing the project file once, on the spot: the trace grows by
    exactly that one write, the file holds the encoded new content and the
    dirty flag is cleared. *)
Theorem update_settings_writes_once new w sf :
  subtitles (project w) = PySubtitleFile sf ->
  ((forall k v, new !! k = Some v ->
                value_eq v (default value_None (settings sf !! k)) = true) ->
   UpdateProjectSettings new w = (Return tt, w)) /\
  (forall k v path,
     new !! k = Some v ->
     value_eq v (default value_None (settings sf !! k)) = false ->
     scenes sf <> [] ->
     projectfile (project w) = Some path -> path <> "" ->
     let sf' := UpdateOutputPath (sf_UpdateProjectSettings new sf) in
     UpdateProjectSettings new w =
       (Return tt,
        {| project :=
             set_needsupdate false
               (set_subtitles (PySubtitleFile sf') (project w));
           disk := <[normpath path := encode sf']> (disk w);
           translator_events := translator_events w;
           trace := trace w ++ [FileWritten (normpath path) (encode sf')] |})).
Proof.
  intros Hs. split.
  - intros Hall. unfold UpdateProjectSettings, bind, self. simpl.
    rewrite Hs. simpl. rewrite settings_match_true by assumption.
    reflexivity.
  - intros k v path Hk Hne Hsc Hpf Hpath sf'.
    unfold UpdateProjectSettings, bind, self. simpl.
    rewrite Hs. simpl.
    rewrite (settings_match_false _ _ k v) by assumption.
    unfold subtitle_file, bind, self, update_self, ret, when. simpl.
    rewrite Hs. simpl.
    rewrite bool_decide_eq_false_2 by assumption. simpl.
    unfold WriteProjectFile, bind, self, update_self, ret, when. simpl.
    rewrite bool_decide_eq_false_2 by assumption. simpl.
    rewrite Hpf, truthy_str_Some by assumption. simpl.
    reflexivity.
Qed.

(** ** What the methods leave alone *)

Section Keeps.

Context (R : World value scene batch -> World value scene batch -> Prop).
Context `{!Frame R}.

Lemma keeps_ret {A} (a : A) : keeps R (ret a).
Proof. intros w. apply frame_refl. Qed.

Lemma keeps_raise {A} (e : exn) : keeps R (raise (A:=A) e).
Proof. intros w. apply frame_refl. Qed.

Lemma keeps_of_result {A} (r : Result A) : keeps R (of_result r).
Proof. intros w. apply frame_refl. Qed.

Lemma keeps_self : keeps R self.
Proof. intros w. apply frame_refl. Qed.

Lemma keeps_read_disk : keeps R read_disk.
Proof. intros w. apply frame_refl. Qed.

Lemma keeps_bind {A B} (m : M A) (k : A -> M B) :
  keeps R m -> (forall a, keeps R (k a)) -> keeps R (bind m k).
Proof.
  intros Hm Hk w. unfold bind. specialize (Hm w).
  destruct (m w) as [[a | e] w']; simpl in *.
  - eapply frame_trans; [exact Hm | apply Hk].
  - exact Hm.
Qed.

Lemma keeps_try_except {A} (m : M A) (h : exn -> M A) :
  keeps R m -> (forall e, keeps R (h e)) -> keeps R (try_except m h).
Proof.
  intros Hm Hh w. unfold try_except. specialize (Hm w).
  destruct (m w) as [[a | e] w']; simpl in *.
  - exact Hm.
  - eapply frame_trans; [exact Hm | apply Hh].
Qed.

Lemma keeps_when (b : bool) (m : M unit) : keeps R m -> keeps R (when b m).
Proof. intros Hm. destruct b; [exact Hm | apply keeps_ret]. Qed.

Ltac keeps_step :=
  first
    [ apply keeps_ret | apply keeps_raise | apply keeps_of_result
    | apply keeps_self | apply keeps_read_disk
    | apply frame_subtitles | apply frame_projectfile
    | apply frame_needsupdate | apply frame_emit | apply frame_write_file
    | apply frame_read_write | apply frame_load
    | assumption
    | match goal with H : context [keeps] |- _ => apply H end
    | apply keeps_when
    | apply keeps_bind; [ | intros ? ]
    | apply keeps_try_except; [ | intros ? ]
    | match goal with
      | |- keeps _ (if ?b then _ else _) => destruct b
      | |- keeps _ (match ?x with _ => _ end) => destruct x
      end ].

Ltac keeps_tac := repeat keeps_step.

Lemma keeps_subtitle_file : keeps R subtitle_file.
Proof. unfold subtitle_file. keeps_tac. Qed.

Lemma keeps_SaveTranslation o : keeps R (SaveTranslation o).
Proof. unfold SaveTranslation. keeps_tac. Qed.

Lemma keeps_LoadSubtitleFile f : keeps R (LoadSubtitleFile f).
Proof. unfold LoadSubtitleFile. keeps_tac. Qed.

Lemma keeps_WriteProjectFile a : keeps R (WriteProjectFile a).
Proof.
  pose proof keeps_subtitle_file.
  unfold WriteProjectFile. keeps_tac.
Qed.

Lemma keeps_WriteBackupFile : keeps R WriteBackupFile.
Proof.
  pose proof keeps_WriteProjectFile.
  unfold WriteBackupFile. keeps_tac.
Qed.

Lemma keeps_ReadProjectFile f : keeps R (ReadProjectFile f).
Proof. unfold ReadProjectFile. keeps_tac. Qed.

Lemma keeps_UpdateProjectFile : keeps R UpdateProjectFile.
Proof. unfold UpdateProjectFile. keeps_tac. Qed.

Lemma keeps_UpdateProjectSettings new : keeps R (UpdateProjectSettings new).
Proof.
  pose proof keeps_subtitle_file.
  pose proof (keeps_WriteProjectFile None).
  unfold UpdateProjectSettings. keeps_tac.
Qed.

Lemma keeps_call_handler h ch arg : keeps R (call_handler h ch arg).
Proof.
  pose proof (keeps_SaveTranslation None).
  destruct h; simpl;
    unfold _on_preprocessed, _on_batch_translated, _on_scene_translated;
    keeps_tac.
Qed.

Lemma keeps_call_all hs ch arg : keeps R (call_all hs ch arg).
Proof.
  induction hs as [|h hs IH]; simpl.
  - apply keeps_ret.
  - apply keeps_bind; [apply keeps_call_handler | intros _; exact IH].
Qed.

Lemma keeps_run_step s : keeps R (run_step s).
Proof.
  destruct s as [ch arg | f]; simpl.
  - intros w. apply keeps_call_all.
  - keeps_tac.
Qed.

Lemma keeps_run_script l : keeps R (run_script l).
Proof.
  induction l as [|s l IH]; simpl.
  - apply keeps_ret.
  - apply keeps_bind; [apply keeps_run_step | intros _; exact IH].
Qed.

Lemma keeps_translator_call t : keeps R (translator_call t).
Proof.
  pose proof (keeps_run_script (script t)).
  unfold translator_call. keeps_tac.
Qed.

Lemma keeps_prime_project_file : keeps R prime_project_file.
Proof.
  pose proof (keeps_WriteProjectFile None).
  unfold prime_project_file. keeps_tac.
Qed.

Lemma keeps_rescue {A} t e : keeps R (rescue (A:=A) t e).
Proof.
  pose proof (keeps_SaveTranslation None).
  unfold rescue. keeps_tac.
Qed.

Lemma keeps_InitialiseProject_load f o b :
  keeps R (InitialiseProject_load f o b).
Proof.
  pose proof keeps_subtitle_file.
  pose proof keeps_WriteBackupFile.
  pose proof (keeps_LoadSubtitleFile f).
  pose proof (keeps_ReadProjectFile).
  unfold InitialiseProject_load, local_subtitles. keeps_tac.
Qed.

(** The subscriptions change the translator's events only. *)
Hypothesis frame_events : forall f, keeps R (update_events f).

Lemma keeps_TranslateSubtitles t : keeps R (TranslateSubtitles t).
Proof.
  pose proof keeps_prime_project_file.
  pose proof (keeps_translator_call t).
  pose proof (keeps_SaveTranslation None).
  pose proof (fun A => keeps_rescue (A:=A) t).
  unfold TranslateSubtitles, subscribe_run, unsubscribe_run.
  keeps_tac; apply frame_events.
Qed.

Lemma keeps_TranslateScene t n bs ls : keeps R (TranslateScene t n bs ls).
Proof.
  pose proof keeps_subtitle_file.
  pose proof (keeps_translator_call t).
  pose proof (keeps_SaveTranslation None).
  pose proof (fun A => keeps_rescue (A:=A) t).
  unfold TranslateScene, subscribe_scene, unsubscribe_scene.
  keeps_tac; apply frame_events.
Qed.

(** [InitialiseProject] assigns the read, write and load-source flags. *)
Hypothesis frame_write_read :
  keeps R (update_self (fun p =>
    set_mode (set_write_project true (set_read_project true (mode p))) p)).
Hypothesis frame_downgrade :
  keeps R (update_self (fun p =>
    set_mode (set_load_subtitles true (set_read_project false (mode p))) p)).

Lemma keeps_InitialiseProject f o b : keeps R (InitialiseProject f o b).
Proof.
  pose proof (keeps_InitialiseProject_load).
  unfold InitialiseProject, InitialiseProject_paths, InitialiseProject_check.
  keeps_tac.
Qed.

Lemma keeps_run_call c : keeps R (run_call c).
Proof.
  destruct c; simpl; unfold void.
  - apply keeps_InitialiseProject.
  - apply keeps_SaveTranslation.
  - apply keeps_bind; [apply keeps_LoadSubtitleFile | intros; apply keeps_ret].
  - apply keeps_WriteProjectFile.
  - apply keeps_WriteBackupFile.
  - apply keeps_bind; [apply keeps_ReadProjectFile | intros; apply keeps_ret].
  - apply keeps_UpdateProjectFile.
  - apply keeps_UpdateProjectSettings.
  - apply keeps_TranslateSubtitles.
  - apply keeps_bind; [apply keeps_TranslateScene | intros; apply keeps_ret].
Qed.

End Keeps.

Lemma Frame_same_fixed_flags :
  Frame (value:=value) (scene:=scene) (batch:=batch) same_fixed_flags.
Proof.
  split; unfold keeps, same_fixed_flags; intros; simpl;
    try reflexivity; congruence.
Qed.

Lemma Frame_same_events :
  Frame (value:=value) (scene:=scene) (batch:=batch) same_events.
Proof.
  split; unfold keeps, same_events; intros; simpl;
    try reflexivity; congruence.
Qed.

Lemma Frame_still_subtitle_file :
  Frame (value:=value) (scene:=scene) (batch:=batch) still_subtitle_file.
Proof.
  split; unfold keeps, still_subtitle_file; intros; simpl; auto.
Qed.

Lemma Frame_read_write_stay :
  Frame (value:=value) (scene:=scene) (batch:=batch) read_write_stay.
Proof.
  split; unfold keeps, read_write_stay; intros; simpl; try tauto.
Qed.

(** ** The mode flags after construction *)

(** C9, as amended: update, preview, resume, reparse and retranslate are
    derived once, at construction: whatever method is called afterwards, in
    whatever world, and whether it returns or raises, these five flags are what
    they were.  Read, write and load-source are not immutable; of
    [WriteProjectFile] in particular: it either leaves all eight flags as they
    were, or, given a path while write is off, turns write and read on and
    leaves the other six. *)
Theorem fixed_mode_flags_never_change :
  (forall (c : Call value scene batch) w,
     fixed_flags (mode (project (run_call c w).2))
     = fixed_flags (mode (project w))) /\
  (forall a w,
     let m := mode (project w) in
     let m' := mode (project (WriteProjectFile a w).2) in
     m' = m \/
     (truthy_str a = true /\ write_project m = false /\
      m' = set_read_project true (set_write_project true m))).
Proof.
  split.
  - intros c w.
    apply (keeps_run_call same_fixed_flags (Frame0:=Frame_same_fixed_flags));
      intros; intros w'; reflexivity.
  - intros a [[sub pf nu se th iv io m] d ev tr]. cbv zeta.
    unfold WriteProjectFile, subtitle_file, bind, self, when, update_self,
      write_file, ret, raise.
    simpl.
    destruct sub as [|sf|[|]]; simpl; auto.
    destruct (bool_decide (scenes sf = [])); simpl; auto.
    destruct a as [[|c a]|]; simpl;
      destruct (write_project m) eqn:Hw; simpl;
      destruct pf as [[|c' f]|]; simpl;
      first [ left; reflexivity
            | right; repeat split; first [reflexivity | assumption] ].
Qed.

(** ** Initialisation *)

(** Lines 61-65 always return, with the normalised input path.  What they
    and the rest of [InitialiseProject] do to the flags when the input is
    the project file itself is shown with the other cases of initialisation,
    further down. *)
Lemma InitialiseProject_paths_returns filepath w :
  (InitialiseProject_paths filepath w).1 = Return (normpath filepath).
Proof.
  unfold InitialiseProject_paths, bind, self, when, update_self, ret. simpl.
  destruct (_ && _); reflexivity.
Qed.

(** ** A translation run *)

Lemma bind_returns {A B} (m : M A) (k : A -> M B) w a :
  (m w).1 = Return a -> bind m k w = k a (m w).2.
Proof.
  unfold bind. destruct (m w) as [[a' | e] w']; simpl; congruence.
Qed.

Lemma try_except_bind {A B} (m : M A) (k : A -> M B) (h : exn -> M B) w :
  try_except (bind m k) h w
  = match m w with
    | (Return a, w') => try_except (k a) h w'
    | (Raise e, w') => h e w'
    end.
Proof.
  unfold try_except, bind. destruct (m w) as [[a | e] w']; reflexivity.
Qed.

Lemma returns_eta {A} (m : M A) w a :
  (m w).1 = Return a -> m w = (Return a, (m w).2).
Proof. destruct (m w) as [r w']. simpl. congruence. Qed.

Lemma SaveTranslation_returns o w : (SaveTranslation o w).1 = Return tt.
Proof.
  unfold SaveTranslation, bind, self. simpl.
  destruct (subtitles (project w)) as [|sf|]; try reflexivity.
  destruct (sf_SaveTranslation o sf). reflexivity.
Qed.

(** No handler raises. *)
Lemma call_handler_returns h ch arg w :
  (call_handler h ch arg w).1 = Return tt.
Proof.
  destruct h; simpl; try reflexivity.
  unfold _on_scene_translated.
  rewrite (bind_returns _ _ _ tt) by apply SaveTranslation_returns.
  reflexivity.
Qed.

Lemma call_all_returns hs ch arg w : (call_all hs ch arg w).1 = Return tt.
Proof.
  revert w. induction hs as [|h hs IH]; intros w; simpl; [reflexivity |].
  rewrite (bind_returns _ _ _ tt) by apply call_handler_returns. apply IH.
Qed.

Lemma call_all_app hs hs' ch arg w :
  call_all (hs ++ hs') ch arg w
  = call_all hs' ch arg (call_all hs ch arg w).2.
Proof.
  revert w. induction hs as [|h hs IH]; intros w; simpl; [reflexivity |].
  rewrite !(bind_returns _ _ _ tt) by apply call_handler_returns. apply IH.
Qed.

Lemma run_step_returns s w : (run_step s w).1 = Return tt.
Proof.
  destruct s as [ch arg | f]; simpl.
  - apply call_all_returns.
  - unfold bind, self. simpl. destruct (subtitles (project w)); reflexivity.
Qed.

(** The translator's script runs to its end: what the call raises, it raises
    itself. *)
Lemma run_script_returns l w : (run_script l w).1 = Return tt.
Proof.
  revert w. induction l as [|s l IH]; intros w; simpl; [reflexivity |].
  rewrite (bind_returns _ _ _ tt) by apply run_step_returns. apply IH.
Qed.

Lemma run_script_app l l' w :
  run_script (l ++ l') w = run_script l' (run_script l w).2.
Proof.
  revert w. induction l as [|s l IH]; intros w; simpl; [reflexivity |].
  rewrite !(bind_returns _ _ _ tt) by apply run_step_returns. apply IH.
Qed.

(** Entering the run changes the translator's events by the three
    subscriptions, and nothing of the flags [fixed_flags] lists. *)
Lemma entering_run_events w :
  translator_events (entering_run w)
  = subscribe SceneTranslated self_on_scene_translated
      (subscribe BatchTranslated self_on_batch_translated
         (subscribe Preprocessed self_on_preprocessed (translator_events w))).
Proof.
  unfold entering_run.
  pose proof (keeps_prime_project_file same_events
                (Frame0:=Frame_same_events) w) as He.
  unfold same_events in He.
  unfold subscribe_run, bind, update_events. simpl. rewrite He. reflexivity.
Qed.

Lemma entering_run_fixed_flags w :
  fixed_flags (mode (project (entering_run w)))
  = fixed_flags (mode (project w)).
Proof.
  unfold entering_run.
  pose proof (keeps_prime_project_file same_fixed_flags
                (Frame0:=Frame_same_fixed_flags) w) as He.
  unfold same_fixed_flags in He.
  unfold subscribe_run, bind, update_events. simpl. exact He.
Qed.

Lemma entering_run_subtitle_file w :
  is_subtitle_file (subtitles (project w)) ->
  is_subtitle_file (subtitles (project (entering_run w))).
Proof.
  unfold entering_run.
  pose proof (keeps_prime_project_file still_subtitle_file
                (Frame0:=Frame_still_subtitle_file) w) as He.
  unfold still_subtitle_file in He.
  unfold subscribe_run, bind, update_events. simpl. exact He.
Qed.

(** C3: in a whole-run translation, whenever the translator raises the
    scene-translated event (after any part [pre] of what it does, with [post]
    still to come), the handler of the project that [TranslateSubtitles]
    subscribed is called, after the handlers subscribed before the run, and
    does three things in this order: it saves the translated output; it
    gives the dirty flag the value of the update flag, so the flag is set
    when update mode is active; and it forwards the event to the project's
    own event bus, whose subscribers find the dirty flag already assigned.
    From the world this leaves, the run carries on with the rest of what the
    translator does.  Nothing here looks at the autosave configuration: the
    world [w] is any world, with or without a stop event and a thread. *)
Theorem scene_translated_saves_then_forwards
    (t : SubtitleTranslator value scene batch) w sf pre arg post :
  subtitles (project w) = PySubtitleFile sf ->
  (prime_project_file w).1 = Return tt ->
  script t = pre ++ Emit SceneTranslated arg :: post ->
  let w_event :=
    (call_all (scene_translated (translator_events w)) SceneTranslated arg
       (run_script pre (entering_run w)).2).2 in
  let w_saved := (SaveTranslation None w_event).2 in
  let dirty := update_project (mode (project w)) in
  let w_forwarded :=
    {| project := set_needsupdate dirty (project w_saved);
       disk := disk w_saved;
       translator_events := translator_events w_saved;
       trace := trace w_saved ++ [Forwarded SceneTranslated arg dirty] |} in
  let rest :=
    {| stop_on_error := stop_on_error t; script := post;
       raises := raises t |} in
  TranslateSubtitles t w
  = try_except
      (translator_call rest ;;; unsubscribe_run ;;; SaveTranslation None)
      (fun e => if is_abort e then raise e else rescue t e)
      w_forwarded /\
  (exists ok,
     trace w_forwarded
     = trace w_event ++ [SaveTranslationCalled None ok;
                         Forwarded SceneTranslated arg dirty]) /\
  needsupdate (project w_forwarded) = update_project (mode (project w)) /\
  (update_project (mode (project w)) = true ->
   needsupdate (project w_forwarded) = true /\
   exists ok,
     trace w_forwarded
     = trace w_event ++ [SaveTranslationCalled None ok;
                         Forwarded SceneTranslated arg true]).
Proof.
  intros Hs Hprime Hscript w_event w_saved dirty w_forwarded rest.
  set (w1 := (run_script pre (entering_run w)).2) in *.
  assert (Hev : translator_events w1 = translator_events (entering_run w)).
  { apply (keeps_run_script same_events (Frame0:=Frame_same_events)). }
  assert (Hfile : is_subtitle_file (subtitles (project w_event))).
  { apply (keeps_call_all still_subtitle_file
             (Frame0:=Frame_still_subtitle_file)).
    apply (keeps_run_script still_subtitle_file
             (Frame0:=Frame_still_subtitle_file)).
    apply entering_run_subtitle_file. rewrite Hs. exact I. }
  assert (Hflags : fixed_flags (mode (project w_event))
                   = fixed_flags (mode (project w))).
  { etransitivity;
      [apply (keeps_call_all same_fixed_flags
                (Frame0:=Frame_same_fixed_flags)) |].
    etransitivity;
      [apply (keeps_run_script same_fixed_flags
                (Frame0:=Frame_same_fixed_flags)) |].
    apply entering_run_fixed_flags. }
  assert (Hupd : update_project (mode (project w_saved)) = dirty).
  { pose proof (keeps_SaveTranslation same_fixed_flags
                  (Frame0:=Frame_same_fixed_flags) None w_event) as Hsave.
    unfold same_fixed_flags in Hsave. fold w_saved in Hsave.
    unfold fixed_flags in Hflags, Hsave. subst dirty. congruence. }
  assert (Hhandler : _on_scene_translated arg w_event
                     = (Return tt, w_forwarded)).
  { unfold _on_scene_translated.
    rewrite (bind_returns _ _ _ tt) by apply SaveTranslation_returns.
    fold w_saved. unfold forward, bind, self, update_self, emit.
    cbn [fst snd project needsupdate set_needsupdate].
    rewrite Hupd. reflexivity. }
  assert (Hstep : run_step (Emit SceneTranslated arg) w1
                  = (Return tt, w_forwarded)).
  { cbn [run_step]. unfold fire.
    rewrite Hev, entering_run_events. simpl slot.
    rewrite call_all_app. fold w_event. cbn [call_all call_handler].
    rewrite (bind_returns _ _ _ tt) by (rewrite Hhandler; reflexivity).
    rewrite Hhandler. reflexivity. }
  assert (Htrace : exists ok,
             trace w_forwarded
             = trace w_event ++ [SaveTranslationCalled None ok;
                                 Forwarded SceneTranslated arg dirty]).
  { subst w_forwarded w_saved. cbn [trace].
    unfold SaveTranslation, bind, self, update_self, emit. cbn [fst snd].
    destruct (subtitles (project w_event)) as [|sf1|]; try contradiction.
    destruct (sf_SaveTranslation None sf1) as [ok sf2]. cbn [fst snd trace].
    exists ok. rewrite <- app_assoc. reflexivity. }
  split.
  { unfold TranslateSubtitles.
    rewrite (bind_returns self _ w (project w)) by reflexivity.
    cbn [fst snd]. rewrite Hs. cbn [truthy negb].
    rewrite (bind_returns _ _ _ tt) by exact Hprime.
    rewrite try_except_bind.
    replace (subscribe_run (prime_project_file w).2)
      with (Return tt, entering_run w) by reflexivity.
    unfold try_except, translator_call, bind. subst rest. cbn [script raises].
    rewrite Hscript, run_script_app. fold w1. cbn [run_script].
    unfold bind. rewrite Hstep. reflexivity. }
  split; [exact Htrace |].
  split; [reflexivity |].
  intros Hu. split; [exact Hu |].
  destruct Htrace as [ok Htrace]. exists ok. rewrite Htrace.
  subst dirty. rewrite Hu. reflexivity.
Qed.

(** ** Abort *)

(** C8: when the call of the translator raises [TranslationAbortedError],
    [TranslateSubtitles] (once the project file is primed) and
    [TranslateScene] (once the scene is found) raise that very exception, and
    the world they leave is the world the translator left when it raised:
    no save of the output and no write of the project file is added. *)
Theorem abort_is_propagated_without_save
    (t : SubtitleTranslator value scene batch) w sf msg :
  subtitles (project w) = PySubtitleFile sf ->
  raises t = Some (TranslationAbortedError msg) ->
  ((prime_project_file w).1 = Return tt ->
   TranslateSubtitles t w
   = (Raise (TranslationAbortedError msg),
      (run_script (script t) (entering_run w)).2)) /\
  (forall n bs ls sc,
     GetScene sf n = Return sc ->
     TranslateScene t n bs ls w
     = (Raise (TranslationAbortedError msg),
        (run_script (script t) (entering_scene w)).2)).
Proof.
  intros Hs Hraise. split.
  - intros Hprime. unfold TranslateSubtitles, bind at 1, self. simpl.
    rewrite Hs. simpl.
    rewrite (bind_returns _ _ _ tt) by exact Hprime.
    unfold try_except, entering_run.
    set (wp := (prime_project_file w).2).
    unfold bind at 1.
    change (subscribe_run wp) with (Return tt, (subscribe_run wp).2).
    cbv iota beta.
    unfold bind at 1, translator_call.
    rewrite (bind_returns _ _ _ tt) by apply run_script_returns.
    rewrite Hraise. reflexivity.
  - intros n bs ls sc Hscene.
    unfold TranslateScene, bind at 1, self. simpl.
    rewrite Hs. simpl.
    unfold try_except, entering_scene.
    unfold bind at 1.
    change (subscribe_scene w) with (Return tt, (subscribe_scene w).2).
    cbv iota beta.
    unfold bind at 1, subtitle_file, bind at 1, self. simpl.
    rewrite Hs. simpl.
    unfold bind at 1, of_result. rewrite Hscene.
    unfold bind at 1, translator_call.
    rewrite (bind_returns _ _ _ tt) by apply run_script_returns.
    rewrite Hraise. reflexivity.
Qed.

(** ** Completion and failure *)

Lemma filter_other_app_self (h : Handler) (l : list Handler) :
  h ∉ l -> filter (fun h' => h' <> h) (l ++ [h]) = l.
Proof.
  intros Hnot. rewrite filter_app.
  replace (filter (fun h' => h' <> h) [h]) with (@nil Handler).
  - rewrite app_nil_r. induction l as [|x l IH]; [reflexivity |].
    apply not_elem_of_cons in Hnot as [Hx Hl].
    rewrite filter_cons_True by congruence. f_equal. apply IH, Hl.
  - rewrite filter_cons_False by tauto. reflexivity.
Qed.

Lemma unsubscribe_subscribe ch h ev :
  h ∉ slot ch ev -> unsubscribe ch h (subscribe ch h ev) = ev.
Proof.
  intros Hnot. unfold unsubscribe, subscribe.
  destruct ch, ev; simpl in *; rewrite filter_other_app_self by assumption;
    reflexivity.
Qed.

Lemma translator_call_returns (t : SubtitleTranslator value scene batch) w :
  raises t = None ->
  translator_call t w = (Return tt, (run_script (script t) w).2).
Proof.
  intros Hret. unfold translator_call.
  rewrite (bind_returns _ _ _ tt) by apply run_script_returns.
  rewrite Hret. reflexivity.
Qed.

(** What a whole-run translation that completes amounts to. *)
Lemma TranslateSubtitles_completed
    (t : SubtitleTranslator value scene batch) w sf :
  subtitles (project w) = PySubtitleFile sf ->
  raises t = None ->
  (prime_project_file w).1 = Return tt ->
  TranslateSubtitles t w
  = (Return tt,
     (SaveTranslation None
        (unsubscribe_run (run_script (script t) (entering_run w)).2).2).2).
Proof.
  intros Hs Hret Hprime.
  unfold TranslateSubtitles, entering_run.
  rewrite (bind_returns self _ w (project w)) by reflexivity.
  change (self w).2 with w. rewrite Hs. cbn [truthy negb].
  rewrite (bind_returns _ _ _ tt) by exact Hprime.
  set (wp := (prime_project_file w).2).
  unfold try_except.
  rewrite (bind_returns subscribe_run _ wp tt) by reflexivity.
  rewrite (bind_returns (translator_call t) _ _ tt)
    by (rewrite translator_call_returns by assumption; reflexivity).
  rewrite translator_call_returns by assumption. cbn [snd].
  set (w1 := (run_script (script t) (subscribe_run wp).2).2).
  rewrite (bind_returns unsubscribe_run _ w1 tt) by reflexivity.
  rewrite (returns_eta _ _ tt (SaveTranslation_returns None _)).
  reflexivity.
Qed.

(** X1: a whole-run translation that completes (the project file primed, the
    translator returning) returns, and leaves the translator's events as they
    were before the call, provided the three handlers of the project were not
    subscribed already. *)
Theorem completed_run_unsubscribes
    (t : SubtitleTranslator value scene batch) w sf :
  subtitles (project w) = PySubtitleFile sf ->
  raises t = None ->
  (prime_project_file w).1 = Return tt ->
  self_on_preprocessed ∉ preprocessed (translator_events w) ->
  self_on_batch_translated ∉ batch_translated (translator_events w) ->
  self_on_scene_translated ∉ scene_translated (translator_events w) ->
  (TranslateSubtitles t w).1 = Return tt /\
  translator_events (TranslateSubtitles t w).2 = translator_events w.
Proof.
  intros Hs Hret Hprime Hp Hb Hsc.
  rewrite (TranslateSubtitles_completed t w sf) by assumption.
  split; [reflexivity |]. simpl.
  set (w1 := (run_script (script t) (entering_run w)).2).
  rewrite (keeps_SaveTranslation same_events (Frame0:=Frame_same_events)).
  assert (Hev : translator_events w1 = translator_events (entering_run w)).
  { apply (keeps_run_script same_events (Frame0:=Frame_same_events)). }
  unfold unsubscribe_run, bind, update_events. simpl.
  rewrite Hev, entering_run_events.
  destruct (translator_events w) as [lp lb ls]. simpl in *.
  unfold unsubscribe, subscribe. simpl.
  rewrite !filter_other_app_self by assumption. reflexivity.
Qed.

(** X2: when the call of the translator raises an exception that is not an
    abort, [TranslateSubtitles] raises that exception again; before it does,
    it saves the translated output once if the translator stops on errors, and
    does nothing if it does not. *)
Theorem failure_is_rescued_then_raised
    (t : SubtitleTranslator value scene batch) w sf e :
  subtitles (project w) = PySubtitleFile sf ->
  raises t = Some e ->
  is_abort e = false ->
  (prime_project_file w).1 = Return tt ->
  let w_failed := (run_script (script t) (entering_run w)).2 in
  TranslateSubtitles t w
  = (Raise e,
     if stop_on_error t then (SaveTranslation None w_failed).2 else w_failed).
Proof.
  intros Hs Hraise Habort Hprime w_failed.
  assert (Hfile : is_subtitle_file (subtitles (project w_failed))).
  { apply (keeps_run_script still_subtitle_file
             (Frame0:=Frame_still_subtitle_file)).
    apply entering_run_subtitle_file. rewrite Hs. exact I. }
  unfold TranslateSubtitles, bind at 1, self. simpl.
  rewrite Hs. simpl.
  rewrite (bind_returns _ _ _ tt) by exact Hprime.
  unfold try_except. subst w_failed. unfold entering_run in *.
  set (wp := (prime_project_file w).2) in *.
  unfold bind at 1.
  change (subscribe_run wp) with (Return tt, (subscribe_run wp).2).
  cbv iota beta.
  unfold bind at 1, translator_call.
  rewrite (bind_returns _ _ _ tt) by apply run_script_returns.
  rewrite Hraise. unfold raise at 1. cbv iota beta. rewrite Habort.
  set (wf := (run_script (script t) (subscribe_run wp).2).2) in *.
  unfold rescue, bind at 1, self. simpl.
  destruct (subtitles (project wf)) as [|sf'|] eqn:Hsub; try contradiction.
  simpl. destruct (stop_on_error t); simpl.
  - rewrite (bind_returns _ _ _ tt) by apply SaveTranslation_returns.
    reflexivity.
  - reflexivity.
Qed.

(** X3: with content that has scenes and a project file path set,
    [WriteProjectFile()] returns after writing the encoded content to the
    normalised project file path, once, and clearing the dirty flag; the
    content, the path and the mode flags are as they were. *)
Theorem write_project_file_checkpoints w sf path :
  subtitles (project w) = PySubtitleFile sf ->
  scenes sf <> [] ->
  projectfile (project w) = Some path -> path <> "" ->
  WriteProjectFile None w
  = (Return tt,
     {| project := set_needsupdate false (project w);
        disk := <[normpath path := encode sf]> (disk w);
        translator_events := translator_events w;
        trace := trace w ++ [FileWritten (normpath path) (encode sf)] |}).
Proof.
  intros Hs Hsc Hpf Hpath.
  unfold WriteProjectFile, subtitle_file, bind, self, update_self, write_file,
    ret, when.
  simpl. rewrite Hs. simpl.
  rewrite bool_decide_eq_false_2 by assumption. simpl.
  rewrite Hpf, truthy_str_Some by assumption. simpl.
  rewrite Hs. reflexivity.
Qed.


End Proofs.

(** * Further properties of the class and of the script *)

Section Coverage.

Context {value scene batch : Type} `{!Collaborators value scene}.

Implicit Types w : World value scene batch.
Implicit Types sf : SubtitleFile value scene.
Implicit Types p : SubtitleProject value scene.
Implicit Types t : SubtitleTranslator value scene batch.
Implicit Types P : World value scene batch -> Prop.

(** ** Invariants of computations *)

Lemma preserves_ret P {A} (a : A) : preserves P (ret a).
Proof. intros w Hw. exact Hw. Qed.

Lemma preserves_raise P {A} (e : exn) : preserves P (raise (A:=A) e).
Proof. intros w Hw. exact Hw. Qed.

Lemma preserves_of_result P {A} (r : Result A) : preserves P (of_result r).
Proof. intros w Hw. exact Hw. Qed.

Lemma preserves_self P : preserves P self.
Proof. intros w Hw. exact Hw. Qed.

Lemma preserves_read_disk P : preserves P read_disk.
Proof. intros w Hw. exact Hw. Qed.

Lemma preserves_bind P {A B} (m : M A) (k : A -> M B) :
  preserves P m -> (forall a, preserves P (k a)) -> preserves P (bind m k).
Proof.
  intros Hm Hk w Hw. unfold bind. specialize (Hm w Hw).
  destruct (m w) as [[a | e] w']; simpl in *; [apply Hk, Hm | exact Hm].
Qed.

Lemma preserves_try_except P {A} (m : M A) (h : exn -> M A) :
  preserves P m -> (forall e, preserves P (h e)) -> preserves P (try_except m h).
Proof.
  intros Hm Hh w Hw. unfold try_except. specialize (Hm w Hw).
  destruct (m w) as [[a | e] w']; simpl in *; [exact Hm | apply Hh, Hm].
Qed.

Lemma preserves_when P (b : bool) (m : M unit) :
  preserves P m -> preserves P (when b m).
Proof. intros Hm. destruct b; [exact Hm | apply preserves_ret]. Qed.

(** An invariant that the assignments to the content and to the dirty flag,
    the effects other than a write, and the subscriptions all keep: the
    methods that never write a file and never assign a mode flag keep it. *)
Section Quiet.

Context (P : World value scene batch -> Prop).
Hypothesis quiet_subtitles :
  forall sf, preserves P (update_self (set_subtitles (PySubtitleFile sf))).
Hypothesis quiet_needsupdate :
  forall b, preserves P (update_self (set_needsupdate b)).
Hypothesis quiet_emit : forall e, preserves P (emit e).
Hypothesis quiet_events : forall f, preserves P (update_events f).

Ltac quiet_step :=
  first
    [ apply preserves_ret | apply preserves_raise | apply preserves_of_result
    | apply preserves_self | apply preserves_read_disk
    | apply quiet_subtitles | apply quiet_needsupdate | apply quiet_emit
    | apply quiet_events
    | match goal with H : context [preserves] |- _ => apply H end
    | apply preserves_when
    | apply preserves_bind; [ | intros ? ]
    | apply preserves_try_except; [ | intros ? ]
    | match goal with
      | |- preserves _ (if ?b then _ else _) => destruct b
      | |- preserves _ (match ?x with _ => _ end) => destruct x
      end ].

Ltac quiet_tac := repeat quiet_step.

Lemma quiet_subtitle_file : preserves P subtitle_file.
Proof. unfold subtitle_file. quiet_tac. Qed.

Lemma quiet_SaveTranslation o : preserves P (SaveTranslation o).
Proof. unfold SaveTranslation. quiet_tac. Qed.

Lemma quiet_call_handler h ch arg : preserves P (call_handler h ch arg).
Proof.
  pose proof (quiet_SaveTranslation None).
  destruct h; simpl;
    unfold _on_preprocessed, _on_batch_translated, _on_scene_translated;
    quiet_tac.
Qed.

Lemma quiet_call_all hs ch arg : preserves P (call_all hs ch arg).
Proof.
  induction hs as [|h hs IH]; simpl.
  - apply preserves_ret.
  - apply preserves_bind; [apply quiet_call_handler | intros _; exact IH].
Qed.

Lemma quiet_run_script l : preserves P (run_script l).
Proof.
  induction l as [|s l IH]; simpl; [apply preserves_ret |].
  apply preserves_bind; [| intros _; exact IH].
  destruct s as [ch arg | f]; simpl.
  - intros w. apply quiet_call_all.
  - quiet_tac.
Qed.

Lemma quiet_translator_call t : preserves P (translator_call t).
Proof.
  pose proof (quiet_run_script (script t)).
  unfold translator_call. quiet_tac.
Qed.

Lemma quiet_rescue {A} t e : preserves P (rescue (A:=A) t e).
Proof.
  pose proof (quiet_SaveTranslation None).
  unfold rescue. quiet_tac.
Qed.

Lemma quiet_TranslateScene t n bs ls : preserves P (TranslateScene t n bs ls).
Proof.
  pose proof quiet_subtitle_file.
  pose proof (quiet_translator_call t).
  pose proof (quiet_SaveTranslation None).
  pose proof (fun A => quiet_rescue (A:=A) t).
  unfold TranslateScene, subscribe_scene, unsubscribe_scene. quiet_tac.
Qed.

(** A whole-run translation is quiet too once the priming of the project
    file is. *)
Lemma quiet_TranslateSubtitles t :
  preserves P prime_project_file -> preserves P (TranslateSubtitles t).
Proof.
  intros Hprime.
  pose proof (quiet_translator_call t).
  pose proof (quiet_SaveTranslation None).
  pose proof (fun A => quiet_rescue (A:=A) t).
  unfold TranslateSubtitles, subscribe_run, unsubscribe_run. quiet_tac.
Qed.

End Quiet.

(** ** What a translation never does *)

(** X7: [TranslateScene] never writes the project file and never changes
    the project file path or a mode flag: in every mode, for every
    translator, and whether it returns, is aborted or fails, the files the
    project opens itself, the path and the eight flags are what they were.
    (Nothing checkpoints a single-scene translation: it only marks the
    project dirty.  The translated output is saved by the [SubtitleFile],
    which the disk of the model does not hold.) *)
Theorem translate_scene_never_writes t n bs ls w :
  let w' := (TranslateScene t n bs ls w).2 in
  disk w' = disk w /\
  projectfile (project w') = projectfile (project w) /\
  mode (project w') = mode (project w).
Proof.
  apply (quiet_TranslateScene
           (fun w' => disk w' = disk w /\
                      projectfile (project w') = projectfile (project w) /\
                      mode (project w') = mode (project w)));
    try (intros; intros w0 Hw0; exact Hw0).
  repeat split.
Qed.

Lemma unwritten_TranslateSubtitles (files : gmap string string) t :
  preserves (unwritten files) (TranslateSubtitles t).
Proof.
  apply quiet_TranslateSubtitles; try (intros; intros w0 Hw0; exact Hw0).
  intros w0 [Hd Hw0]. unfold prime_project_file, bind, self. simpl.
  rewrite Hw0. simpl. split; assumption.
Qed.

(** X8: with the write flag off, [TranslateSubtitles] never writes a
    project file either, and leaves the write flag off: whatever the
    translator does and however the call ends, the files the project opens
    itself are what they were. *)
Theorem translate_without_write_never_writes t w :
  write_project (mode (project w)) = false ->
  let w' := (TranslateSubtitles t w).2 in
  disk w' = disk w /\ write_project (mode (project w')) = false.
Proof.
  intros Hoff. apply (unwritten_TranslateSubtitles (disk w) t w).
  split; [reflexivity | exact Hoff].
Qed.

(** X9: with the write flag on and content that has no scenes yet,
    [TranslateSubtitles] fails while priming the project file: it raises
    before it subscribes a handler or calls the translator, and leaves the
    world as it found it. *)
Theorem translate_fails_priming_without_scenes t w sf :
  subtitles (project w) = PySubtitleFile sf ->
  scenes sf = [] ->
  write_project (mode (project w)) = true ->
  TranslateSubtitles t w
  = (Raise (Exception "Can't write project file, no scenes"), w).
Proof.
  intros Hs Hsc Hon.
  unfold TranslateSubtitles, prime_project_file, WriteProjectFile, bind, self,
    when.
  simpl. rewrite Hs. simpl. rewrite Hon, Hs. simpl.
  rewrite bool_decide_eq_true_2 by assumption. reflexivity.
Qed.

Lemma prime_project_file_written w sf (path : string) :
  subtitles (project w) = PySubtitleFile sf ->
  scenes sf <> [] ->
  projectfile (project w) = Some path -> path <> "" ->
  write_project (mode (project w)) = true ->
  prime_project_file w
  = (Return tt,
     {| project := set_needsupdate false (project w);
        disk := <[normpath path := encode sf]> (disk w);
        translator_events := translator_events w;
        trace := trace w ++ [FileWritten (normpath path) (encode sf)] |}).
Proof.
  intros Hs Hsc Hpf Hpath Hon.
  destruct w as [[sub pf nu se th iv io md] d ev tr]. simpl in *.
  subst sub pf. destruct path as [|c path]; [congruence |].
  unfold prime_project_file, WriteProjectFile, subtitle_file, bind, self,
    update_self, write_file, ret, when.
  simpl. rewrite Hon. simpl.
  rewrite bool_decide_eq_false_2 by assumption. reflexivity.
Qed.

(** X18: a whole-run translation in write mode checkpoints once, before the
    translation.  With the write flag on, content with scenes and a project
    file path, the first effect of [TranslateSubtitles] is the write of the
    project file with the content as it is before translation, and that is
    the only change it makes to the disk: for every translator, and whether
    the call completes, is aborted or fails, the disk it leaves is the disk
    it found with that one file written.  What is translated during the call
    reaches the project file only through a later [WriteProjectFile]. *)
Theorem translate_checkpoints_before_translating t w sf (path : string) :
  subtitles (project w) = PySubtitleFile sf ->
  scenes sf <> [] ->
  projectfile (project w) = Some path -> path <> "" ->
  write_project (mode (project w)) = true ->
  let w' := (TranslateSubtitles t w).2 in
  disk w' = <[normpath path := encode sf]> (disk w) /\
  exists effects,
    trace w' = trace w ++ FileWritten (normpath path) (encode sf) :: effects.
Proof.
  intros Hs Hsc Hpf Hpath Hon. cbv zeta.
  set (P := fun w0 : World value scene batch =>
              disk w0 = <[normpath path := encode sf]> (disk w) /\
              exists effects,
                trace w0
                = trace w ++ FileWritten (normpath path) (encode sf) :: effects).
  assert (Hemit : forall e, preserves P (emit e)).
  { intros e w0 [Hd (l & Hl)]. split; [exact Hd |].
    exists (l ++ [e]). simpl. rewrite Hl, <- app_assoc. reflexivity. }
  assert (Hrest : forall A (m : M A),
             (forall w0, disk (m w0).2 = disk w0 /\ trace (m w0).2 = trace w0) ->
             preserves P m).
  { intros A m Hm w0 [Hd Hl]. destruct (Hm w0) as [Hd' Ht'].
    split; [rewrite Hd'; exact Hd | rewrite Ht'; exact Hl]. }
  change (P (TranslateSubtitles t w).2).
  unfold TranslateSubtitles.
  rewrite (bind_returns self _ w (project w)) by reflexivity.
  change (self w).2 with w. rewrite Hs. cbn [truthy negb].
  rewrite (bind_returns _ _ _ tt)
    by (rewrite (prime_project_file_written w sf path) by assumption;
        reflexivity).
  rewrite (prime_project_file_written w sf path) by assumption. cbn [snd].
  apply preserves_try_except.
  - unfold subscribe_run, unsubscribe_run.
    repeat (apply preserves_bind;
            [apply Hrest; intros w0; split; reflexivity | intros _]).
    apply preserves_bind;
      [apply quiet_translator_call; try exact Hemit;
       intros; apply Hrest; intros w0; split; reflexivity | intros _].
    repeat (apply preserves_bind;
            [apply Hrest; intros w0; split; reflexivity | intros _]).
    apply quiet_SaveTranslation; try exact Hemit;
      intros; apply Hrest; intros w0; split; reflexivity.
  - intros e. destruct (is_abort e); [apply preserves_raise |].
    apply quiet_rescue; try exact Hemit;
      intros; apply Hrest; intros w0; split; reflexivity.
  - split; [reflexivity | exists []; reflexivity].
Qed.

(** ** Initialisation, case by case *)

Lemma InitialiseProject_paths_plain (filepath : string) w :
  project_path filepath <> normpath filepath \/
  read_project (mode (project w)) = true ->
  InitialiseProject_paths filepath w
  = (Return (normpath filepath),
     {| project := set_projectfile (Some (project_path filepath)) (project w);
        disk := disk w; translator_events := translator_events w;
        trace := trace w |}).
Proof.
  intros Hcase.
  unfold InitialiseProject_paths, bind, self, when, update_self, ret. simpl.
  fold (project_path filepath).
  destruct Hcase as [Hne | Hread].
  - rewrite bool_decide_eq_false_2 by congruence. reflexivity.
  - rewrite Hread, andb_false_r. reflexivity.
Qed.

(** Reading the file at the project file path. *)
Lemma GetProjectFilepath_normalised filepath :
  normpath (GetProjectFilepath filepath) = GetProjectFilepath filepath.
Proof.
  unfold GetProjectFilepath. destruct (splitext filepath) as [path ext].
  apply normpath_idempotent.
Qed.

Lemma ReadProjectFile_projectfile (path : string) w :
  projectfile (project w) = Some path ->
  normpath path = path ->
  ReadProjectFile (Some path) w
  = match disk w !! path ≫= decode with
    | Some sf =>
        (Return (Some (Sanitise sf)),
         {| project := set_subtitles (PySubtitleFile (Sanitise sf)) (project w);
            disk := disk w; translator_events := translator_events w;
            trace := trace w |})
    | None => (Return None, w)
    end.
Proof.
  intros Hpf Hnorm.
  unfold ReadProjectFile, bind, self, read_disk, update_self, ret.
  cbn [fst snd]. rewrite Hpf.
  replace (if truthy_str (Some path) then Some path else Some path)
    with (Some path) by (destruct (truthy_str _); reflexivity).
  cbv iota beta. rewrite Hnorm.
  destruct (disk w !! path) as [data|]; simpl; [| reflexivity].
  destruct (decode data); reflexivity.
Qed.

Ltac initialise_from Hpaths :=
  unfold InitialiseProject; unfold bind at 1;
  rewrite InitialiseProject_paths_plain by Hpaths; cbv iota beta;
  unfold InitialiseProject_check, InitialiseProject_load,
    LoadSubtitleFile, WriteBackupFile, local_subtitles, subtitle_file,
    bind, self, read_disk, when, update_self, ret, raise, of_result;
  simpl.

Lemma InitialiseProject_from_source (filepath : string) o b w sf :
  project_path filepath <> normpath filepath ->
  read_project (mode (project w)) = false ->
  load_subtitles (mode (project w)) = true ->
  LoadSubtitles (disk w) (new_SubtitleFile (normpath filepath)) = Return sf ->
  InitialiseProject filepath o b w
  = (if has_subtitles sf then Return tt
     else Raise (ValueError (String.append "No subtitles to translate in "
                               (normpath filepath))),
     initialised w filepath (mode (project w)) sf o).
Proof.
  intros Hne Hread Hload Hsrc.
  initialise_from ltac:(left; exact Hne).
  repeat (progress (rewrite ?Hread, ?Hload, ?Hsrc; simpl)).
  unfold initialised.
  destruct (truthy_str o), (has_subtitles sf) eqn:Hh;
    simpl; rewrite ?Hh; reflexivity.
Qed.

(** X10: a fresh start.  With the read flag off, the load-source flag on and
    an input that is not itself a project file, [InitialiseProject] takes the
    content from the source file at the normalised input path and reads no
    project file: it returns with that content (its output path replaced if
    one was given), the project file path set and the flags as they were, if
    the content has subtitles; and raises [ValueError], in the same world, if
    it has none. *)
Theorem initialise_fresh_start (filepath : string) o b w sf :
  project_path filepath <> normpath filepath ->
  read_project (mode (project w)) = false ->
  load_subtitles (mode (project w)) = true ->
  LoadSubtitles (disk w) (new_SubtitleFile (normpath filepath)) = Return sf ->
  InitialiseProject filepath o b w
  = (if has_subtitles sf then Return tt
     else Raise (ValueError (String.append "No subtitles to translate in "
                               (normpath filepath))),
     initialised w filepath (mode (project w)) sf o).
Proof. apply InitialiseProject_from_source. Qed.

(** X11: a missing project file is not an error.  With the read flag on and
    no file at the project file path, [InitialiseProject] turns the read flag
    off and the load-source flag on, and takes the content from the source
    file. *)
Theorem initialise_missing_project_file (filepath : string) o b w sf :
  read_project (mode (project w)) = true ->
  disk w !! project_path filepath = None ->
  LoadSubtitles (disk w) (new_SubtitleFile (normpath filepath)) = Return sf ->
  has_subtitles sf = true ->
  InitialiseProject filepath o b w
  = (Return tt,
     initialised w filepath
       (set_load_subtitles true (set_read_project false (mode (project w))))
       sf o).
Proof.
  intros Hread Hmiss Hsrc Hhas.
  initialise_from ltac:(right; exact Hread).
  repeat (progress (rewrite ?Hread, ?Hmiss, ?Hsrc; simpl)).
  unfold initialised.
  destruct (truthy_str o); simpl; rewrite Hhas; reflexivity.
Qed.

(** X12: resuming.  With the read flag on and a project file that decodes
    to content with scenes, [InitialiseProject] (asked for no backup) takes
    the sanitised content of the project file, turns the load-source flag off
    and never consults the source file; it writes nothing. *)
Theorem initialise_resumes_project (filepath : string) o w data sf :
  read_project (mode (project w)) = true ->
  disk w !! project_path filepath = Some data ->
  decode data = Some sf ->
  scenes (Sanitise sf) <> [] ->
  has_subtitles (Sanitise sf) = true ->
  InitialiseProject filepath o false w
  = (Return tt,
     initialised w filepath (set_load_subtitles false (mode (project w)))
       (Sanitise sf) o).
Proof.
  intros Hread Hfile Hdec Hsc Hhas.
  initialise_from ltac:(right; exact Hread).
  repeat (progress (rewrite ?Hread, ?Hfile; simpl)).
  rewrite ReadProjectFile_projectfile
    by first [reflexivity | apply GetProjectFilepath_normalised]. simpl.
  rewrite Hfile. simpl. rewrite Hdec. simpl.
  rewrite bool_decide_eq_false_2 by assumption. simpl.
  unfold initialised.
  destruct (truthy_str o); simpl; rewrite Hhas; reflexivity.
Qed.

(** X13: a project file that cannot be used is not an error either.  With
    the read flag on and a project file that does not decode, or decodes to
    content without scenes, [InitialiseProject] turns the load-source flag on
    and takes the content from the source file. *)
Theorem initialise_falls_back_to_source (filepath : string) o b w data sf :
  read_project (mode (project w)) = true ->
  disk w !! project_path filepath = Some data ->
  decode data = None \/
  (exists sf0, decode data = Some sf0 /\ scenes (Sanitise sf0) = []) ->
  LoadSubtitles (disk w) (new_SubtitleFile (normpath filepath)) = Return sf ->
  has_subtitles sf = true ->
  InitialiseProject filepath o b w
  = (Return tt,
     initialised w filepath (set_load_subtitles true (mode (project w))) sf o).
Proof.
  intros Hread Hfile Hbad Hsrc Hhas.
  initialise_from ltac:(right; exact Hread).
  repeat (progress (rewrite ?Hread, ?Hfile; simpl)).
  rewrite ReadProjectFile_projectfile
    by first [reflexivity | apply GetProjectFilepath_normalised]. simpl.
  rewrite Hfile. simpl.
  destruct Hbad as [Hdec | (sf0 & Hdec & Hsc)]; rewrite Hdec; simpl.
  - rewrite Hsrc. simpl. unfold initialised.
    destruct (truthy_str o); simpl; rewrite Hhas; reflexivity.
  - rewrite bool_decide_eq_true_2 by assumption. simpl.
    rewrite Hsrc. simpl. unfold initialised.
    destruct (truthy_str o); simpl; rewrite Hhas; reflexivity.
Qed.

(** X14: a mode that neither reads nor loads.  With the read and load-source
    flags both off (the empty mode string, or a mode name that is not
    recognised) and an input that is not itself a project file,
    [InitialiseProject] raises [UnboundLocalError]: it has set the project
    file path and has no content to go on with. *)
Theorem initialise_without_source_fails (filepath : string) o b w :
  project_path filepath <> normpath filepath ->
  read_project (mode (project w)) = false ->
  load_subtitles (mode (project w)) = false ->
  InitialiseProject filepath o b w
  = (Raise (UnboundLocalError "cannot access local variable 'subtitles'"),
     {| project := set_projectfile (Some (project_path filepath)) (project w);
        disk := disk w; translator_events := translator_events w;
        trace := trace w |}).
Proof.
  intros Hne Hread Hload.
  initialise_from ltac:(left; exact Hne).
  repeat (progress (rewrite ?Hread, ?Hload; simpl)).
  destruct (truthy_str o); reflexivity.
Qed.

(** ** The project store, further *)

Lemma truthy_str_append (s x : string) :
  x <> "" -> truthy_str (Some (String.append s x)) = true.
Proof.
  intros Hx. destruct s; simpl; [| reflexivity].
  destruct x; [congruence | reflexivity].
Qed.

Lemma WriteProjectFile_given (a : string) w sf :
  subtitles (project w) = PySubtitleFile sf ->
  scenes sf <> [] ->
  a <> "" ->
  let m := written_with_path (mode (project w)) in
  (truthy_str (projectfile (project w)) = false ->
   let sf' := set_outputpath (Some (GetOutputPath a (target_language sf))) sf in
   WriteProjectFile (Some a) w
   = (Return tt,
      {| project :=
           set_needsupdate false
             (set_subtitles (PySubtitleFile sf')
                (set_projectfile (Some (GetProjectFilepath a))
                   (set_mode m (project w))));
         disk := <[normpath a := encode sf']> (disk w);
         translator_events := translator_events w;
         trace := trace w ++ [FileWritten (normpath a) (encode sf')] |})) /\
  (truthy_str (projectfile (project w)) = true ->
   WriteProjectFile (Some a) w
   = (Return tt,
      {| project := set_needsupdate false (set_mode m (project w));
         disk := <[normpath a := encode sf]> (disk w);
         translator_events := translator_events w;
         trace := trace w ++ [FileWritten (normpath a) (encode sf)] |})).
Proof.
  intros Hs Hsc Ha m. subst m. unfold written_with_path.
  destruct w as [[sub pf nu se th iv io md] d ev tr]. simpl in *. subst sub.
  destruct a as [|c a]; [congruence |].
  split; intros Hpf; destruct pf as [[|c' f]|]; simpl in Hpf;
    try discriminate;
    unfold WriteProjectFile, subtitle_file, bind, self, update_self,
      write_file, ret, when;
    simpl; rewrite bool_decide_eq_false_2 by assumption; simpl;
    destruct (write_project md); reflexivity.
Qed.

(** X15: [WriteProjectFile] given a path, on content with scenes.  The file
    is written at the path as given (normalised), whatever its extension; the
    dirty flag is cleared and the write flag is on afterwards.  If the
    project had no project file path yet, it adopts the path with the
    extension [.subtrans] forced (which need not be the path written to) and
    recomputes the output path; if it had one, path and content stay. *)
Theorem write_project_file_with_path (a : string) w sf :
  subtitles (project w) = PySubtitleFile sf ->
  scenes sf <> [] ->
  a <> "" ->
  let m := written_with_path (mode (project w)) in
  (truthy_str (projectfile (project w)) = false ->
   let sf' := set_outputpath (Some (GetOutputPath a (target_language sf))) sf in
   WriteProjectFile (Some a) w
   = (Return tt,
      {| project :=
           set_needsupdate false
             (set_subtitles (PySubtitleFile sf')
                (set_projectfile (Some (GetProjectFilepath a))
                   (set_mode m (project w))));
         disk := <[normpath a := encode sf']> (disk w);
         translator_events := translator_events w;
         trace := trace w ++ [FileWritten (normpath a) (encode sf')] |})) /\
  (truthy_str (projectfile (project w)) = true ->
   WriteProjectFile (Some a) w
   = (Return tt,
      {| project := set_needsupdate false (set_mode m (project w));
         disk := <[normpath a := encode sf]> (disk w);
         translator_events := translator_events w;
         trace := trace w ++ [FileWritten (normpath a) (encode sf)] |})).
Proof. apply WriteProjectFile_given. Qed.

Lemma WriteBackupFile_written w :
  (truthy (subtitles (project w)) = false \/
   truthy_str (projectfile (project w)) = false ->
   WriteBackupFile w = (Return tt, w)) /\
  (forall sf path,
     subtitles (project w) = PySubtitleFile sf ->
     scenes sf <> [] ->
     projectfile (project w) = Some path -> path <> "" ->
     let backup := normpath (GetBackupFilepath path) in
     WriteBackupFile w
     = (Return tt,
        {| project :=
             set_needsupdate false
               (set_mode (written_with_path (mode (project w))) (project w));
           disk := <[backup := encode sf]> (disk w);
           translator_events := translator_events w;
           trace := trace w ++ [FileWritten backup (encode sf)] |})).
Proof.
  split.
  - intros Hcase. unfold WriteBackupFile, bind, self. cbn [fst snd].
    destruct Hcase as [H0 | H0]; rewrite H0, ?andb_false_r; reflexivity.
  - intros sf path Hs Hsc Hpf Hpath backup. subst backup.
    assert (Hb : GetBackupFilepath path <> "").
    { unfold GetBackupFilepath. intros Habs.
      destruct (GetProjectFilepath path); discriminate Habs. }
    destruct (WriteProjectFile_given (GetBackupFilepath path) w sf Hs Hsc Hb)
      as [_ Hset].
    rewrite <- Hset by (rewrite Hpf; apply truthy_str_Some, Hpath).
    unfold WriteBackupFile, bind, self. cbn [fst snd].
    rewrite Hs, Hpf, truthy_str_Some by assumption. reflexivity.
Qed.

(** X16: [WriteBackupFile], on content with scenes and with a project file
    path, writes the encoded content to the backup path (the project file
    path followed by [-backup], normalised).  It goes through
    [WriteProjectFile] with that path, so it also clears the dirty flag,
    though the project file itself was not written, and turns the write flag
    on.  Without content or without a project file path it does nothing. *)
Theorem write_backup_file_writes_backup w :
  (truthy (subtitles (project w)) = false \/
   truthy_str (projectfile (project w)) = false ->
   WriteBackupFile w = (Return tt, w)) /\
  (forall sf path,
     subtitles (project w) = PySubtitleFile sf ->
     scenes sf <> [] ->
     projectfile (project w) = Some path -> path <> "" ->
     let backup := normpath (GetBackupFilepath path) in
     WriteBackupFile w
     = (Return tt,
        {| project :=
             set_needsupdate false
               (set_mode (written_with_path (mode (project w))) (project w));
           disk := <[backup := encode sf]> (disk w);
           translator_events := translator_events w;
           trace := trace w ++ [FileWritten backup (encode sf)] |})).
Proof. apply WriteBackupFile_written. Qed.

(** Resuming with a backup, whether or not the content has subtitles. *)
Lemma InitialiseProject_resumed_with_backup (filepath : string) o w data sf :
  read_project (mode (project w)) = true ->
  disk w !! project_path filepath = Some data ->
  decode data = Some sf ->
  scenes (Sanitise sf) <> [] ->
  project_path filepath <> "" ->
  let backup := normpath (GetBackupFilepath (project_path filepath)) in
  let w1 :=
    initialised w filepath
      (written_with_path (set_load_subtitles false (mode (project w))))
      (Sanitise sf) o in
  InitialiseProject filepath o true w
  = (if has_subtitles (Sanitise sf) then Return tt
     else Raise (ValueError (String.append "No subtitles to translate in "
                               (normpath filepath))),
     {| project := set_needsupdate false (project w1);
        disk := <[backup := encode (Sanitise sf)]> (disk w);
        translator_events := translator_events w;
        trace := trace w ++ [FileWritten backup (encode (Sanitise sf))] |}).
Proof.
  intros Hread Hfile Hdec Hsc Hpp backup w1. subst backup w1.
  unfold InitialiseProject. unfold bind at 1.
  rewrite InitialiseProject_paths_plain by (right; exact Hread).
  cbv iota beta.
  unfold InitialiseProject_check, InitialiseProject_load, local_subtitles,
    subtitle_file, bind, self, read_disk, when, update_self, ret, raise.
  simpl.
  repeat (progress (rewrite ?Hread, ?Hfile; simpl)).
  rewrite ReadProjectFile_projectfile
    by first [reflexivity | apply GetProjectFilepath_normalised]. simpl.
  rewrite Hfile. simpl. rewrite Hdec. simpl.
  rewrite bool_decide_eq_false_2 by assumption. simpl.
  match goal with
  | |- context [WriteBackupFile ?w0] =>
      destruct (WriteBackupFile_written w0) as [_ Hbackup];
      rewrite (Hbackup (Sanitise sf) (project_path filepath))
        by (try assumption; reflexivity)
  end.
  simpl.
  replace (load_subtitles
             (written_with_path (set_load_subtitles false (mode (project w)))))
    with false
    by (unfold written_with_path; destruct (write_project _); reflexivity).
  unfold initialised.
  destruct (truthy_str o); simpl;
    destruct (has_subtitles (Sanitise sf)); reflexivity.
Qed.

(** X24: resuming with a backup.  With the read flag on, a project file
    that decodes to content with scenes, and a backup asked for,
    [InitialiseProject] takes the sanitised content of the project file and
    writes its encoding to the backup path before it applies the output path
    given.  The backup goes through [WriteProjectFile] with a path, so the
    write flag is on afterwards even in a mode that only reads. *)
Theorem initialise_resumes_with_backup (filepath : string) o w data sf :
  read_project (mode (project w)) = true ->
  disk w !! project_path filepath = Some data ->
  decode data = Some sf ->
  scenes (Sanitise sf) <> [] ->
  has_subtitles (Sanitise sf) = true ->
  project_path filepath <> "" ->
  let backup := normpath (GetBackupFilepath (project_path filepath)) in
  let w1 :=
    initialised w filepath
      (written_with_path (set_load_subtitles false (mode (project w))))
      (Sanitise sf) o in
  InitialiseProject filepath o true w
  = (Return tt,
     {| project := set_needsupdate false (project w1);
        disk := <[backup := encode (Sanitise sf)]> (disk w);
        translator_events := translator_events w;
        trace := trace w ++ [FileWritten backup (encode (Sanitise sf))] |}).
Proof.
  intros Hread Hfile Hdec Hsc Hhas Hpp backup w1. subst backup w1.
  rewrite (InitialiseProject_resumed_with_backup filepath o w data sf)
    by assumption.
  rewrite Hhas. reflexivity.
Qed.

(** ** Initialising on the project file itself *)

(** The write flag through the steps of [InitialiseProject] that write no
    backup. *)
Ltac write_flag_tac :=
  repeat first
    [ apply preserves_ret | apply preserves_raise | apply preserves_of_result
    | apply preserves_self | apply preserves_read_disk
    | match goal with H : context [preserves] |- _ => apply H end
    | apply preserves_when
    | apply preserves_bind; [ | intros ? ]
    | match goal with
      | |- preserves _ (if ?b then _ else _) => destruct b
      | |- preserves _ (match ?x with _ => _ end) => destruct x
      end
    | match goal with
      | |- preserves _ (update_self _) => intros ? Hflag; exact Hflag
      end ].

Lemma write_flag_ReadProjectFile c f :
  preserves (fun w => write_flag c w) (ReadProjectFile f).
Proof. unfold ReadProjectFile. write_flag_tac. Qed.

Lemma write_flag_LoadSubtitleFile c path :
  preserves (fun w => write_flag c w) (LoadSubtitleFile path).
Proof. unfold LoadSubtitleFile. write_flag_tac. Qed.

Lemma write_flag_InitialiseProject_check c :
  preserves (fun w => write_flag c w) InitialiseProject_check.
Proof. unfold InitialiseProject_check. write_flag_tac. Qed.

Lemma write_flag_InitialiseProject_load c path o :
  preserves (fun w => write_flag c w) (InitialiseProject_load path o false).
Proof.
  pose proof (write_flag_ReadProjectFile c).
  pose proof (write_flag_LoadSubtitleFile c).
  unfold InitialiseProject_load, local_subtitles, subtitle_file.
  write_flag_tac.
Qed.

Lemma InitialiseProject_check_returns w :
  (InitialiseProject_check w).1 = Return tt /\
  projectfile (project (InitialiseProject_check w).2) = projectfile (project w) /\
  disk (InitialiseProject_check w).2 = disk w.
Proof.
  unfold InitialiseProject_check, bind, self, read_disk, when, update_self, ret.
  cbn [fst snd].
  destruct (read_project (mode (project w)) && _); repeat split.
Qed.

(** A backup is written only of a project file that loads with scenes. *)
Lemma InitialiseProject_load_without_backup path o w :
  (forall sf w',
     ReadProjectFile (projectfile (project w)) w = (Return (Some sf), w') ->
     scenes sf = []) ->
  InitialiseProject_load path o true w = InitialiseProject_load path o false w.
Proof.
  intros Hread. unfold InitialiseProject_load, bind, self. cbn [fst snd].
  destruct (read_project (mode (project w))); [| reflexivity].
  remember (ReadProjectFile (projectfile (project w)) w) as r eqn:E.
  destruct r as [[[sf|]|e] w']; try reflexivity.
  rewrite (Hread sf w' eq_refl). reflexivity.
Qed.


(** C6, as amended: when the input path is the project file path derived from
    it, lines 61-65 of [InitialiseProject] set the project file path to it
    and, if the read flag is off, turn read and write on; if the read flag is
    already on they leave the flags as they are (write stays as resolved).
    With the read flag off and the project file on disk, read and write are
    on when [InitialiseProject] ends, whether it returns or raises.  With the
    read flag on, the write flag is as resolved when [InitialiseProject]
    ends, whether it returns or raises, unless a backup is asked for and the
    project file loads with scenes: writing the backup goes through
    [WriteProjectFile] with a path, and that turns write on. *)
Theorem initialise_on_project_file (filepath : string) w :
  let path := normpath filepath in
  GetProjectFilepath (if String.eqb path "" then "subtitles" else path) = path ->
  let w1 := (InitialiseProject_paths filepath w).2 in
  projectfile (project w1) = Some path /\
  (read_project (mode (project w)) = false ->
   read_project (mode (project w1)) = true /\
   write_project (mode (project w1)) = true) /\
  (read_project (mode (project w)) = true ->
   mode (project w1) = mode (project w)) /\
  (forall o b,
     read_project (mode (project w)) = false ->
     is_Some (disk w !! path) ->
     let w' := (InitialiseProject filepath o b w).2 in
     read_project (mode (project w')) = true /\
     write_project (mode (project w')) = true) /\
  (forall o b,
     read_project (mode (project w)) = true ->
     b = false \/
     disk w !! path = None \/
     (exists data,
        disk w !! path = Some data /\
        (decode data = None \/
         exists sf, decode data = Some sf /\ scenes (Sanitise sf) = [])) ->
     let w' := (InitialiseProject filepath o b w).2 in
     write_project (mode (project w')) = write_project (mode (project w))) /\
  (forall o data sf,
     read_project (mode (project w)) = true ->
     path <> "" ->
     disk w !! path = Some data ->
     decode data = Some sf ->
     scenes (Sanitise sf) <> [] ->
     let w' := (InitialiseProject filepath o true w).2 in
     read_project (mode (project w')) = true /\
     write_project (mode (project w')) = true).
Proof.
  intros path Hpath w1.
  assert (Hw1 : InitialiseProject_paths filepath w =
                (Return path,
                 if read_project (mode (project w)) then
                   {| project := set_projectfile (Some path) (project w);
                      disk := disk w; translator_events := translator_events w;
                      trace := trace w |}
                 else
                   {| project :=
                        set_mode (set_write_project true
                                    (set_read_project true (mode (project w))))
                          (set_projectfile (Some path) (project w));
                      disk := disk w; translator_events := translator_events w;
                      trace := trace w |})).
  { unfold InitialiseProject_paths, bind, self, when, update_self, ret. simpl.
    fold path. rewrite Hpath, bool_decide_eq_true_2 by reflexivity. simpl.
    destruct (read_project (mode (project w))); reflexivity. }
  subst w1. rewrite Hw1. simpl.
  split; [destruct (read_project (mode (project w))); reflexivity |].
  split; [intros Hr; rewrite Hr; split; reflexivity |].
  split; [intros Hr; rewrite Hr; reflexivity |].
  split; [intros o b Hr Hfile | clear Hw1; split].
  {
  unfold InitialiseProject, bind. rewrite Hw1, Hr.
  unfold InitialiseProject_check, bind, self, read_disk, when. simpl.
  rewrite bool_decide_eq_true_2 by assumption. simpl.
  match goal with
  | |- context [InitialiseProject_load path o b ?w0] =>
      pose proof (keeps_InitialiseProject_load read_write_stay
                    (Frame0:=Frame_read_write_stay) path o b w0) as [Hr' Hw'];
      destruct (InitialiseProject_load path o b w0) as [[[]|e] w2];
      simpl in *; split; first [apply Hr' | apply Hw']; reflexivity
  end. }
  - intros o b Hr Hcase. cbv zeta.
    assert (Hpp : project_path filepath = path) by exact Hpath.
    assert (Hnorm : normpath path = path) by apply normpath_idempotent.
    unfold InitialiseProject. unfold bind at 1.
    rewrite InitialiseProject_paths_plain by (right; exact Hr).
    cbv iota beta. rewrite Hpp.
    match goal with
    | |- context [bind InitialiseProject_check _ ?w0] => set (w1 := w0)
    end.
    destruct (InitialiseProject_check_returns w1) as (Hret & Hpf & Hdisk).
    rewrite (bind_returns _ _ _ tt) by exact Hret.
    pose proof (write_flag_InitialiseProject_check
                  (write_project (mode (project w))) w1 eq_refl) as Hflag.
    set (w2 := (InitialiseProject_check w1).2) in *.
    assert (Hload : InitialiseProject_load (normpath filepath) o b w2
                    = InitialiseProject_load (normpath filepath) o false w2).
    { destruct b; [| reflexivity].
      apply InitialiseProject_load_without_backup.
      assert (Hpf' : projectfile (project w2) = Some path) by exact Hpf.
      assert (Hdisk' : disk w2 = disk w) by exact Hdisk.
      intros sf w' Hread. rewrite Hpf' in Hread.
      rewrite ReadProjectFile_projectfile in Hread by assumption.
      rewrite Hdisk' in Hread.
      destruct Hcase as [Hb | [Hnone | (data & Hdata & Hbad)]].
      - discriminate Hb.
      - rewrite Hnone in Hread. discriminate Hread.
      - rewrite Hdata in Hread. simpl in Hread.
        destruct Hbad as [Hdec | (sf0 & Hdec & Hsc)];
          rewrite Hdec in Hread; [discriminate Hread |].
        injection Hread as <- _. exact Hsc. }
    rewrite Hload.
    apply (write_flag_InitialiseProject_load
             (write_project (mode (project w))) (normpath filepath) o w2 Hflag).
  - intros o data sf Hr Hne Hdata Hdec Hsc. cbv zeta.
    assert (Hpp : project_path filepath = path) by exact Hpath.
    rewrite (InitialiseProject_resumed_with_backup filepath o w data sf)
      by (rewrite ?Hpp; assumption).
    cbn [fst snd project]. unfold initialised, written_with_path.
    destruct w as [[sub pf nu se th iv io [r wr u l pv rs rp rt]] d ev tr].
    simpl in *. subst r. destruct wr; split; reflexivity.
Qed.

(** X17: what the project writes, it reads back.  After [WriteProjectFile()]
    on content with scenes, at a project file path that is already
    normalised, [ReadProjectFile()] finds the file and returns the sanitised
    decoding of what was encoded, which becomes the content; a codec that
    decodes its own encoding to the same content thus restores the content up
    to [Sanitise]. *)
Theorem written_project_reads_back w sf sf' (path : string) :
  subtitles (project w) = PySubtitleFile sf ->
  scenes sf <> [] ->
  projectfile (project w) = Some path -> path <> "" ->
  normpath path = path ->
  decode (encode sf) = Some sf' ->
  (WriteProjectFile None ;;; ReadProjectFile None) w
  = (Return (Some (Sanitise sf')),
     {| project :=
          set_subtitles (PySubtitleFile (Sanitise sf'))
            (set_needsupdate false (project w));
        disk := <[path := encode sf]> (disk w);
        translator_events := translator_events w;
        trace := trace w ++ [FileWritten path (encode sf)] |}).
Proof.
  intros Hs Hsc Hpf Hpath Hnorm Hdec.
  destruct w as [[sub pf nu se th iv io md] d ev tr]. simpl in *. subst sub pf.
  destruct path as [|c path]; [congruence |].
  unfold WriteProjectFile, ReadProjectFile, subtitle_file, bind, self,
    update_self, write_file, read_disk, ret, when.
  simpl. rewrite bool_decide_eq_false_2 by assumption. simpl.
  rewrite Hnorm, lookup_insert_eq, Hdec. reflexivity.
Qed.

(** ** A single scene *)

(** X19: a scene that cannot be found.  When [GetScene] raises (an exception
    that is not an abort), [TranslateScene] raises it again without calling
    the translator; by then the two handlers are subscribed, and they stay
    subscribed; the output is saved once before the exception is raised again
    if the translator stops on errors, and not otherwise. *)
Theorem translate_scene_without_scene t n bs ls w sf e :
  subtitles (project w) = PySubtitleFile sf ->
  GetScene sf n = Raise e ->
  is_abort e = false ->
  TranslateScene t n bs ls w
  = (Raise e,
     if stop_on_error t then (SaveTranslation None (entering_scene w)).2
     else entering_scene w).
Proof.
  intros Hs Hscene Habort.
  unfold TranslateScene, entering_scene.
  rewrite (bind_returns self _ w (project w)) by reflexivity.
  change (self w).2 with w. rewrite Hs. cbn [truthy negb].
  unfold try_except.
  rewrite (bind_returns subscribe_scene _ w tt) by reflexivity.
  set (w0 := (subscribe_scene w).2).
  assert (Hs0 : subtitles (project w0) = PySubtitleFile sf) by exact Hs.
  rewrite (bind_returns subtitle_file _ w0 sf)
    by (unfold subtitle_file, bind, self; simpl; rewrite Hs; reflexivity).
  replace (subtitle_file w0).2 with w0
    by (unfold subtitle_file, bind, self; simpl; rewrite Hs; reflexivity).
  unfold bind at 1, of_result. rewrite Hscene, Habort.
  unfold rescue, bind at 1, self. cbn [fst snd]. rewrite Hs0.
  cbn [truthy andb]. destruct (stop_on_error t); cbn [when].
  - rewrite (bind_returns _ _ _ tt) by apply SaveTranslation_returns.
    reflexivity.
  - reflexivity.
Qed.

(** X20: a single-scene translation that completes returns the scene
    [GetScene] found, and leaves the translator's events as they were before
    the call, provided the two handlers of the project were not subscribed
    already. *)
Theorem completed_scene_returns_scene t n bs ls w sf sc :
  subtitles (project w) = PySubtitleFile sf ->
  GetScene sf n = Return sc ->
  raises t = None ->
  self_on_preprocessed ∉ preprocessed (translator_events w) ->
  self_on_batch_translated ∉ batch_translated (translator_events w) ->
  (TranslateScene t n bs ls w).1 = Return sc /\
  translator_events (TranslateScene t n bs ls w).2 = translator_events w.
Proof.
  intros Hs Hscene Hret Hp Hb.
  assert (Hrun : TranslateScene t n bs ls w
                 = (Return sc,
                    (SaveTranslation None
                       (unsubscribe_scene
                          (run_script (script t) (entering_scene w)).2).2).2)).
  { unfold TranslateScene, entering_scene.
    rewrite (bind_returns self _ w (project w)) by reflexivity.
    change (self w).2 with w. rewrite Hs. cbn [truthy negb].
    unfold try_except.
    rewrite (bind_returns subscribe_scene _ w tt) by reflexivity.
    set (w0 := (subscribe_scene w).2).
    rewrite (bind_returns subtitle_file _ w0 sf)
      by (unfold subtitle_file, bind, self; simpl; rewrite Hs; reflexivity).
    replace (subtitle_file w0).2 with w0
      by (unfold subtitle_file, bind, self; simpl; rewrite Hs; reflexivity).
    unfold bind at 1, of_result. rewrite Hscene.
    rewrite (bind_returns (translator_call t) _ _ tt)
      by (rewrite translator_call_returns by assumption; reflexivity).
    rewrite translator_call_returns by assumption. cbn [snd].
    set (w1 := (run_script (script t) w0).2).
    rewrite (bind_returns unsubscribe_scene _ w1 tt) by reflexivity.
    rewrite (bind_returns _ _ _ tt) by apply SaveTranslation_returns.
    reflexivity. }
  rewrite Hrun. split; [reflexivity |]. cbn [snd].
  set (w1 := (run_script (script t) (entering_scene w)).2).
  rewrite (keeps_SaveTranslation same_events (Frame0:=Frame_same_events)).
  assert (Hev : translator_events w1 = translator_events (entering_scene w)).
  { apply (keeps_run_script same_events (Frame0:=Frame_same_events)). }
  unfold unsubscribe_scene, bind, update_events. simpl.
  rewrite Hev. unfold entering_scene, subscribe_scene, bind, update_events.
  simpl.
  destruct (translator_events w) as [lp lb ls']. simpl in *.
  unfold unsubscribe, subscribe. simpl.
  rewrite !filter_other_app_self by assumption. reflexivity.
Qed.

(** ** The dirty flag over a run *)

Lemma call_handler_marks h ch (arg : Payload scene batch) w :
  is_self h = true -> marked (call_handler h ch arg w).2.
Proof.
  intros Hself. unfold marked.
  destruct h; try discriminate; simpl;
    unfold _on_preprocessed, _on_batch_translated, _on_scene_translated,
      SaveTranslation, bind, self, update_self, emit;
    simpl; try reflexivity.
  destruct (subtitles (project w)) as [|sf|]; simpl; try reflexivity.
  destruct (sf_SaveTranslation None sf). reflexivity.
Qed.

Lemma marked_call_handler h ch (arg : Payload scene batch) :
  preserves marked (call_handler h ch arg).
Proof.
  intros w Hw. destruct (is_self h) eqn:Hself.
  - apply call_handler_marks, Hself.
  - destruct h; try discriminate. exact Hw.
Qed.

Lemma marked_call_all hs ch (arg : Payload scene batch) :
  preserves marked (call_all hs ch arg).
Proof.
  induction hs as [|h hs IH]; simpl; [apply preserves_ret |].
  apply preserves_bind; [apply marked_call_handler | intros _; exact IH].
Qed.

Lemma call_all_marks hs ch (arg : Payload scene batch) w :
  existsb is_self hs = true -> marked (call_all hs ch arg w).2.
Proof.
  revert w. induction hs as [|h hs IH]; intros w; simpl; [discriminate |].
  rewrite (bind_returns _ _ _ tt) by apply call_handler_returns.
  destruct (is_self h) eqn:Hself; simpl.
  - intros _. apply marked_call_all, call_handler_marks, Hself.
  - apply IH.
Qed.

Lemma run_script_marks (l : list (Step value scene batch)) w :
  listening (translator_events w) ->
  marked w \/ (exists ch arg, In (Emit ch arg) l) ->
  marked (run_script l w).2.
Proof.
  revert w. induction l as [|s l IH]; intros w Hlisten Hcase.
  - destruct Hcase as [Hw | (ch & arg & [])]. exact Hw.
  - simpl. rewrite (bind_returns _ _ _ tt) by apply run_step_returns.
    apply IH.
    + unfold listening.
      rewrite (keeps_run_step same_events (Frame0:=Frame_same_events)).
      exact Hlisten.
    + destruct s as [ch arg | f].
      * left. apply call_all_marks, Hlisten.
      * destruct Hcase as [Hw | (ch & arg & [Heq | Hin])].
        -- left. unfold marked in *. simpl. unfold bind, self. simpl.
           destruct (subtitles (project w)); exact Hw.
        -- discriminate Heq.
        -- right. eauto.
Qed.

Lemma translator_call_world t w :
  (translator_call t w).2 = (run_script (script t) w).2.
Proof.
  unfold translator_call.
  rewrite (bind_returns _ _ _ tt) by apply run_script_returns.
  destruct (raises t); reflexivity.
Qed.

Lemma entering_run_listening w : listening (translator_events (entering_run w)).
Proof.
  intros ch. rewrite entering_run_events.
  destruct ch; simpl; rewrite existsb_app; simpl; apply orb_true_r.
Qed.

(** X4: the dirty flag after a whole-run translation.  If the translator
    raised at least one of the three events during the call, then, however
    the call ends (completion, abort or failure), the dirty flag is the
    update flag: the project is left dirty in update mode, and clean in a
    mode without update (such as reparse).  Nothing in the call writes the
    project file to clear the flag again. *)
Theorem run_leaves_dirty_flag t w :
  truthy (subtitles (project w)) = true ->
  (prime_project_file w).1 = Return tt ->
  (exists ch arg, In (Emit ch arg) (script t)) ->
  needsupdate (project (TranslateSubtitles t w).2)
  = update_project (mode (project w)).
Proof.
  intros Hs Hprime Hemit.
  assert (Hfixed : fixed_flags (mode (project (TranslateSubtitles t w).2))
                   = fixed_flags (mode (project w))).
  { apply (keeps_TranslateSubtitles same_fixed_flags
             (Frame0:=Frame_same_fixed_flags)).
    intros f w0. reflexivity. }
  assert (Hupd : update_project (mode (project (TranslateSubtitles t w).2))
                 = update_project (mode (project w))).
  { unfold fixed_flags in Hfixed. congruence. }
  rewrite <- Hupd. change (marked (TranslateSubtitles t w).2).
  unfold TranslateSubtitles.
  rewrite (bind_returns self _ w (project w)) by reflexivity.
  change (self w).2 with w. rewrite Hs. cbn [negb].
  rewrite (bind_returns _ _ _ tt) by exact Hprime.
  set (wp := (prime_project_file w).2).
  rewrite try_except_bind.
  change (subscribe_run wp) with (Return tt, entering_run w).
  cbv iota beta. rewrite try_except_bind.
  pose proof (translator_call_world t (entering_run w)) as Hw1.
  assert (Hm1 : marked (translator_call t (entering_run w)).2).
  { rewrite Hw1. apply run_script_marks;
      [apply entering_run_listening | right; exact Hemit]. }
  assert (Hsave : preserves (marked (batch:=batch)) (SaveTranslation None)).
  { apply quiet_SaveTranslation; intros; intros w0 Hw0; exact Hw0. }
  assert (Hhandler : forall e, preserves (marked (batch:=batch))
            (if is_abort e then raise e else rescue (A:=unit) t e)).
  { intros e. destruct (is_abort e); [apply preserves_raise |].
    apply quiet_rescue; intros; intros w0 Hw0; exact Hw0. }
  destruct (translator_call t (entering_run w)) as [[[] | e] w1]; simpl in Hm1.
  - apply preserves_try_except; [| exact Hhandler | exact Hm1].
    unfold unsubscribe_run.
    repeat (apply preserves_bind; [intros w0 Hw0; exact Hw0 | intros _]).
    exact Hsave.
  - apply Hhandler, Hm1.
Qed.

(** ** The autosave pass *)

(** X6: marking and checkpointing compose.  In update mode, with content
    that has scenes and a project file path, [UpdateProjectFile] followed by
    one pass of the autosave loop writes the project file once and leaves the
    dirty flag clear; and a pass over a project that is not dirty does
    nothing. *)
Theorem marked_project_is_checkpointed w :
  (needsupdate (project w) = false ->
   _background_autosave_pass w = (Return tt, w)) /\
  (forall sf path,
     update_project (mode (project w)) = true ->
     subtitles (project w) = PySubtitleFile sf ->
     scenes sf <> [] ->
     projectfile (project w) = Some path -> path <> "" ->
     (UpdateProjectFile ;;; _background_autosave_pass) w
     = (Return tt,
        {| project := set_needsupdate false (project w);
           disk := <[normpath path := encode sf]> (disk w);
           translator_events := translator_events w;
           trace := trace w ++ [FileWritten (normpath path) (encode sf)] |})).
Proof.
  split.
  - intros Hclean. unfold _background_autosave_pass, bind, self. simpl.
    rewrite Hclean. reflexivity.
  - intros sf path Hu Hs Hsc Hpf Hpath.
    destruct w as [[sub pf nu se th iv io md] d ev tr]. simpl in *.
    subst sub pf. destruct path as [|c path]; [congruence |].
    unfold UpdateProjectFile, _background_autosave_pass, WriteProjectFile,
      subtitle_file, bind, self, update_self, write_file, ret, when.
    simpl. rewrite Hu. simpl.
    rewrite bool_decide_eq_false_2 by assumption. reflexivity.
Qed.

(** X21: the dirty flag is cleared before the write, not after it.  When a
    pass of the autosave loop finds the project dirty but the write fails its
    precondition (no content, content of another type, or no scenes yet),
    the exception leaves the pass, and with it the loop, which has no
    handler for it; nothing is written, and the dirty flag stays cleared. *)
Theorem failed_checkpoint_clears_dirty_flag w :
  needsupdate (project w) = true ->
  subtitles (project w) = PyNone \/
  (exists b, subtitles (project w) = PyOther b) \/
  (exists sf, subtitles (project w) = PySubtitleFile sf /\ scenes sf = []) ->
  exists msg,
    _background_autosave_pass w
    = (Raise (Exception msg),
       {| project := set_needsupdate false (project w);
          disk := disk w; translator_events := translator_events w;
          trace := trace w |}).
Proof.
  intros Hdirty Hcase.
  destruct w as [[sub pf nu se th iv io md] d ev tr]. simpl in *. subst nu.
  unfold _background_autosave_pass, WriteProjectFile, bind, self, update_self,
    when.
  simpl.
  destruct Hcase as [-> | [[b ->] | (sf & -> & Hsc)]]; simpl.
  - eexists. reflexivity.
  - destruct b; eexists; reflexivity.
  - rewrite bool_decide_eq_true_2 by assumption. eexists. reflexivity.
Qed.

(** X25: settings that differ, on content without scenes.  When a supplied
    key differs from the stored value and the content has no scenes,
    [UpdateProjectSettings] replaces the settings and returns: the output
    path is not recomputed and nothing is written. *)
Theorem update_settings_without_scenes (new : gmap string value) w sf k v :
  subtitles (project w) = PySubtitleFile sf ->
  new !! k = Some v ->
  value_eq v (default value_None (settings sf !! k)) = false ->
  scenes sf = [] ->
  UpdateProjectSettings new w
  = (Return tt,
     {| project :=
          set_subtitles (PySubtitleFile (sf_UpdateProjectSettings new sf))
            (project w);
        disk := disk w; translator_events := translator_events w;
        trace := trace w |}).
Proof.
  intros Hs Hk Hne Hsc.
  destruct w as [[sub pf nu se th iv io md] d ev tr]. simpl in *. subst sub.
  unfold UpdateProjectSettings, subtitle_file, bind, self, update_self, ret,
    when.
  simpl. rewrite (settings_match_false _ _ k v) by assumption. simpl.
  rewrite bool_decide_eq_true_2 by assumption. reflexivity.
Qed.

(** ** The script *)

Lemma unwritten_UpdateProjectSettings_without_scenes
    (files : gmap string string) (new : gmap string value) w sf :
  subtitles (project w) = PySubtitleFile sf ->
  scenes sf = [] ->
  unwritten files w ->
  unwritten files (UpdateProjectSettings new w).2.
Proof.
  intros Hs Hsc Hw.
  destruct w as [[sub pf nu se th iv io md] d ev tr]. simpl in *. subst sub.
  unfold UpdateProjectSettings, subtitle_file, bind, self, update_self, ret,
    when.
  simpl.
  destruct (settings_match new (settings sf)); simpl; [exact Hw |].
  rewrite bool_decide_eq_true_2 by assumption. exact Hw.
Qed.

(** X23: the script run without a project mode.  When the [--project]
    option is not given, the input is not itself a project file, and the
    content loaded from the source file has no scenes yet, the whole run
    (initialise, hand over the settings, translate, final write) writes no
    project file: the files the project opens itself are what they were when
    the run ends, however it ends and whatever the translator does, and the
    write flag is still off. *)
Theorem script_without_project_mode_writes_nothing
    (options : Options) (files : gmap string string) (ev : TranslationEvents)
    (input : string) (output : option string) (writebackup : bool)
    (settings_arg : gmap string value) t sf :
  opt_project options = None ->
  project_path input <> normpath input ->
  LoadSubtitles files (new_SubtitleFile (normpath input)) = Return sf ->
  scenes sf = [] ->
  let w' :=
    (gpt_subtrans input output writebackup settings_arg t
       (new_world options files ev)).2 in
  disk w' = files /\ write_project (mode (project w')) = false.
Proof.
  intros Hmode Hne Hsrc Hsc.
  set (w0 := new_world options files ev).
  assert (Hm : mode (project w0) = resolve_mode None).
  { unfold w0, new_world, __init__. simpl. rewrite Hmode.
    destruct (_ && _); reflexivity. }
  assert (Hd : disk w0 = files) by reflexivity.
  cbv zeta. change (unwritten files
    (gpt_subtrans input output writebackup settings_arg t w0).2).
  clearbody w0.
  unfold gpt_subtrans. unfold bind at 1.
  rewrite (InitialiseProject_from_source input output writebackup w0 sf);
    try assumption; try (rewrite Hm; reflexivity);
    try (rewrite Hd; assumption).
  set (w1 := initialised w0 input (mode (project w0)) sf output).
  assert (H1 : unwritten files w1).
  { unfold unwritten, w1, initialised. simpl. rewrite Hm.
    split; [exact Hd | reflexivity]. }
  destruct (has_subtitles sf); [| exact H1].
  assert (Hs1 : exists sf1, subtitles (project w1) = PySubtitleFile sf1
                            /\ scenes sf1 = []).
  { unfold w1, initialised. simpl.
    destruct (truthy_str output); eexists; split; try reflexivity; exact Hsc. }
  destruct Hs1 as (sf1 & Hs1 & Hsc1).
  unfold bind at 1.
  pose proof (unwritten_UpdateProjectSettings_without_scenes
                files settings_arg w1 sf1 Hs1 Hsc1 H1) as H2.
  destruct (UpdateProjectSettings settings_arg w1) as [[[] | e] w2];
    simpl in H2; [| exact H2].
  unfold bind at 1.
  pose proof (unwritten_TranslateSubtitles files t w2 H2) as H3.
  destruct (TranslateSubtitles t w2) as [[[] | e] w3]; simpl in H3;
    [| exact H3].
  unfold bind, self, when. simpl.
  destruct H3 as [Hd3 Hw3]. rewrite Hw3. simpl. split; assumption.
Qed.

(** ** Settings, further *)

Section Settings.

Variable value_truthy : value -> bool.

(** X22: [GetProjectSettings] returns exactly the stored settings whose
    value is truthy, and handing its result back to [UpdateProjectSettings]
    changes nothing and writes nothing, provided every stored value equals
    itself.  Without content [GetProjectSettings] raises [AttributeError]. *)
Theorem project_settings_round_trip w :
  (forall sf,
     subtitles (project w) = PySubtitleFile sf ->
     (exists st,
        GetProjectSettings value_truthy w = (Return st, w) /\
        forall k v, st !! k = Some v <->
                    settings sf !! k = Some v /\ value_truthy v = true) /\
     ((forall k v, settings sf !! k = Some v -> value_eq v v = true) ->
      (let* st := GetProjectSettings value_truthy in UpdateProjectSettings st) w
      = (Return tt, w))) /\
  (subtitles (project w) = PyNone ->
   exists msg,
     GetProjectSettings value_truthy w = (Raise (AttributeError msg), w)).
Proof.
  split.
  - intros sf Hs.
    assert (Hget : GetProjectSettings value_truthy w
                   = (Return (filter (fun kv : string * value =>
                                        value_truthy kv.2 = true)
                                (settings sf)), w)).
    { unfold GetProjectSettings, subtitle_file, bind, self, ret. simpl.
      rewrite Hs. reflexivity. }
    split.
    + eexists. split; [exact Hget |].
      intros k v. rewrite map_lookup_filter_Some. reflexivity.
    + intros Hrefl. unfold bind at 1. rewrite Hget.
      unfold UpdateProjectSettings, bind, self. simpl. rewrite Hs. simpl.
      rewrite settings_match_true; [reflexivity |].
      intros k v Hk. apply map_lookup_filter_Some in Hk as [Hk _].
      rewrite Hk. simpl. apply (Hrefl k), Hk.
  - intros Hs. unfold GetProjectSettings, subtitle_file, bind, self. simpl.
    rewrite Hs. eexists. reflexivity.
Qed.

End Settings.

End Coverage.

(** * The properties at concrete inputs *)

Section Examples.

Import Sample.
#[local] Existing Instance Sample.collaborators.

Ltac by_computation :=
  cbv zeta;
  repeat match goal with |- _ /\ _ => apply conj end;
  vm_compute; exact eq_refl.

(** C1, the claim as stated fails: for "preview" the constructor turns
    load-source on, where the table of section 4.1 has it off. *)
Lemma resolve_mode_preview_loads_source :
  load_subtitles (resolve_mode (Some "preview")) = true /\
  load_subtitles (spec_mode_table "preview") = false.
Proof. split; reflexivity. Qed.

Lemma resolve_mode_table_witness :
  resolve_mode (Some "ReSume") = flags true true true false false true false false /\
  resolve_mode (Some "subtitles") = flags false false false false false false false false.
Proof.
  split.
  - apply (resolve_mode_table "ReSume"). reflexivity.
  - apply (resolve_mode_table "subtitles"); [discriminate |].
    unfold mode_names. simpl. intuition discriminate.
Defined.

Lemma write_project_file_preconditions_witness :
  (exists msg, WriteProjectFile (Some "film.subtrans") (start (Some "true") false)
               = (Raise (Exception msg), start (Some "true") false)) /\
  (exists msg, WriteProjectFile None mistyped = (Raise (Exception msg), mistyped)) /\
  (exists msg, WriteProjectFile None unbatched = (Raise (Exception msg), unbatched)).
Proof.
  split; [| split]; apply write_project_file_preconditions.
  - left. reflexivity.
  - right. left. exists true. reflexivity.
  - right. right. eexists. split; vm_compute; reflexivity.
Defined.

(** C4, at the failing input: mode "true" with autosave enabled. *)
Lemma init_with_autosave_has_no_thread :
  let p := project (start (Some "true") true) in
  update_project (mode p) = true /\
  stop_event p = None /\ periodic_update_thread p = None.
Proof. repeat split. Qed.

(** C5 (what the code does): a translation that is aborted, or fails, leaves
    the handlers it subscribed on the translator; only a translation that
    completes removes them. *)
Theorem abort_leaves_handlers_subscribed :
  let w := ready (Some "true") in
  let aborting := translator false (Some (TranslationAbortedError "cancelled")) in
  let failing := translator false (Some (TranslationError "no response")) in
  translator_events w = no_handlers /\
  outcome (call_TranslateSubtitles aborting) w
  = Raise (TranslationAbortedError "cancelled") /\
  translator_events (run (call_TranslateSubtitles aborting) w)
  = {| preprocessed := [self_on_preprocessed];
       batch_translated := [self_on_batch_translated];
       scene_translated := [self_on_scene_translated] |} /\
  translator_events (run (call_TranslateSubtitles failing) w)
  = {| preprocessed := [self_on_preprocessed];
       batch_translated := [self_on_batch_translated];
       scene_translated := [self_on_scene_translated] |} /\
  translator_events (run (call_TranslateScene aborting 1 None None) w)
  = {| preprocessed := [self_on_preprocessed];
       batch_translated := [self_on_batch_translated];
       scene_translated := [] |} /\
  translator_events (run (call_TranslateSubtitles (translator false None)) w)
  = no_handlers.
Proof. by_computation. Qed.

Lemma scene_translated_saves_then_forwards_witness :
  let pre :=
    [Emit Preprocessed (Scenes [1%Z; 2%Z]); Emit BatchTranslated (Batch 1%Z)] in
  let arg := Scene 1%Z in
  let post :=
    [Emit BatchTranslated (Batch 2%Z); Emit SceneTranslated (Scene 2%Z)] in
  let t :=
    {| stop_on_error := true; script := pre ++ Emit SceneTranslated arg :: post;
       raises := None |} in
  let w := ready (Some "true") in
  let w_event :=
    (call_all (scene_translated (translator_events w)) SceneTranslated arg
       (run_script pre (entering_run w)).2).2 in
  let w_saved := (SaveTranslation None w_event).2 in
  let dirty := update_project (mode (project w)) in
  let w_forwarded :=
    {| project := set_needsupdate dirty (project w_saved);
       disk := disk w_saved;
       translator_events := translator_events w_saved;
       trace := trace w_saved ++ [Forwarded SceneTranslated arg dirty] |} in
  let rest :=
    {| stop_on_error := stop_on_error t; script := post;
       raises := raises t |} in
  TranslateSubtitles t w
  = try_except
      (translator_call rest ;;; unsubscribe_run ;;; SaveTranslation None)
      (fun e => if is_abort e then raise e else rescue t e)
      w_forwarded /\
  needsupdate (project w_forwarded) = true /\
  exists ok,
    trace w_forwarded
    = trace w_event ++ [SaveTranslationCalled None ok;
                        Forwarded SceneTranslated arg true].
Proof.
  cbv zeta.
  destruct (scene_translated_saves_then_forwards
              {| stop_on_error := true;
                 script :=
                   [Emit Preprocessed (Scenes [1%Z; 2%Z]);
                    Emit BatchTranslated (Batch 1%Z)]
                   ++ Emit SceneTranslated (Scene 1%Z)
                      :: [Emit BatchTranslated (Batch 2%Z);
                          Emit SceneTranslated (Scene 2%Z)];
                 raises := None |}
              (ready (Some "true")) project_content
              [Emit Preprocessed (Scenes [1%Z; 2%Z]);
               Emit BatchTranslated (Batch 1%Z)]
              (Scene 1%Z)
              [Emit BatchTranslated (Batch 2%Z);
               Emit SceneTranslated (Scene 2%Z)])
    as (Hrun & _ & _ & Hdirty).
  - vm_compute. reflexivity.
  - vm_compute. reflexivity.
  - reflexivity.
  - split; [exact Hrun |]. apply Hdirty. vm_compute. reflexivity.
Defined.

(** C6, the claim as stated fails: with mode "read", initialising on the
    project file itself leaves write off. *)
Lemma initialise_read_mode_leaves_write_off :
  let w := start (Some "read") false in
  let w' := run (call_InitialiseProject "film.subtrans" None false) w in
  outcome (call_InitialiseProject "film.subtrans" None false) w = Return tt /\
  projectfile (project w') = Some "film.subtrans" /\
  read_project (mode (project w')) = true /\
  write_project (mode (project w')) = false.
Proof. by_computation. Qed.

Lemma initialise_on_project_file_witness :
  (let w' := (InitialiseProject "film.subtrans" None false
                (start None false)).2 in
   read_project (mode (project w')) = true /\
   write_project (mode (project w')) = true) /\
  (let w' := (InitialiseProject "film.subtrans" None false
                (start (Some "read") false)).2 in
   write_project (mode (project w')) = false) /\
  (let w' := (InitialiseProject "film.subtrans" None true
                (start (Some "read") false)).2 in
   read_project (mode (project w')) = true /\
   write_project (mode (project w')) = true).
Proof.
  cbv zeta.
  destruct (initialise_on_project_file "film.subtrans" (start None false))
    as (_ & _ & _ & Hend & _).
  { vm_compute. reflexivity. }
  destruct (initialise_on_project_file "film.subtrans"
              (start (Some "read") false))
    as (_ & _ & _ & _ & Hkept & Hbackup).
  { vm_compute. reflexivity. }
  split; [| split].
  - apply (Hend None false).
    + reflexivity.
    + vm_compute. eexists. reflexivity.
  - etransitivity; [apply (Hkept None false) |].
    + reflexivity.
    + left. reflexivity.
    + vm_compute. reflexivity.
  - apply (Hbackup None "{scenes}" project_content).
    + reflexivity.
    + vm_compute. discriminate.
    + vm_compute. reflexivity.
    + reflexivity.
    + vm_compute. discriminate.
Defined.

(** C7, the claim as stated fails: a key differs and the content has scenes,
    but no project file path is set; the settings are replaced, the write
    raises before it opens a file, and nothing is written. *)
Lemma update_settings_without_path_writes_nothing :
  let new : gmap string value := {[ "model" := Some "gpt-5" ]} in
  let w' := run (call_UpdateProjectSettings new) loaded in
  (exists sf, subtitles (project loaded) = PySubtitleFile sf /\
              scenes sf = [1%Z] /\
              settings sf !! "model" = Some (Some "gpt-4")) /\
  projectfile (project loaded) = None /\
  outcome (call_UpdateProjectSettings new) loaded
  = Raise (Exception "No file path provided") /\
  trace w' = [] /\
  disk w' = disk loaded.
Proof.
  cbv zeta. split.
  - exists project_content. by_computation.
  - by_computation.
Qed.

Lemma update_settings_writes_once_witness :
  let w := ready (Some "true") in
  let same : gmap string value := {[ "model" := Some "gpt-4" ]} in
  let other : gmap string value := {[ "model" := Some "gpt-5" ]} in
  UpdateProjectSettings same w = (Return tt, w) /\
  (UpdateProjectSettings other w).1 = Return tt /\
  trace (UpdateProjectSettings other w).2
  = [FileWritten "film.subtrans" "{scenes}"].
Proof.
  cbv zeta. split.
  - eapply (update_settings_writes_once _ (ready (Some "true")) project_content).
    + vm_compute. reflexivity.
    + intros k v Hk. apply lookup_singleton_Some in Hk as [<- <-].
      vm_compute. reflexivity.
  - edestruct (update_settings_writes_once
                 ({[ "model" := Some "gpt-5" ]} : gmap string value)
                 (ready (Some "true")) project_content) as [_ Hwrite].
    + vm_compute. reflexivity.
    + rewrite (Hwrite "model" (Some "gpt-5") "film.subtrans").
      * split; [reflexivity | vm_compute; reflexivity].
      * vm_compute. reflexivity.
      * vm_compute. reflexivity.
      * discriminate.
      * vm_compute. reflexivity.
      * discriminate.
Defined.

Lemma abort_is_propagated_without_save_witness :
  let w := ready (Some "true") in
  let t := translator true (Some (TranslationAbortedError "cancelled")) in
  TranslateSubtitles t w
  = (Raise (TranslationAbortedError "cancelled"),
     (run_script (script t) (entering_run w)).2) /\
  TranslateScene t 1 None None w
  = (Raise (TranslationAbortedError "cancelled"),
     (run_script (script t) (entering_scene w)).2).
Proof.
  cbv zeta.
  edestruct (abort_is_propagated_without_save
               (translator true (Some (TranslationAbortedError "cancelled")))
               (ready (Some "true")) project_content "cancelled")
    as [Hrun Hscene].
  - vm_compute. reflexivity.
  - reflexivity.
  - split; [apply Hrun | apply (Hscene 1%Z None None 1%Z)];
      vm_compute; reflexivity.
Defined.

(** C9, the claim as stated fails: [WriteProjectFile], given a path while
    write is off, turns write and read on. *)
Lemma write_project_file_turns_write_on :
  let w' := run (call_WriteProjectFile (Some "copy.subtrans")) loaded in
  read_project (mode (project loaded)) = false /\
  write_project (mode (project loaded)) = false /\
  outcome (call_WriteProjectFile (Some "copy.subtrans")) loaded = Return tt /\
  read_project (mode (project w')) = true /\
  write_project (mode (project w')) = true.
Proof. by_computation. Qed.

Lemma update_settings_without_content_witness :
  UpdateProjectSettings ({[ "model" := Some "gpt-5" ]} : gmap string value)
    (start (Some "true") true)
  = (Return tt, start (Some "true") true).
Proof. apply update_settings_without_content. reflexivity. Defined.

Lemma completed_run_unsubscribes_witness :
  let t := translator false None in
  let w := ready (Some "true") in
  (TranslateSubtitles t w).1 = Return tt /\
  translator_events (TranslateSubtitles t w).2 = translator_events w.
Proof.
  cbv zeta.
  apply (completed_run_unsubscribes (translator false None)
           (ready (Some "true")) project_content).
  - vm_compute. reflexivity.
  - reflexivity.
  - vm_compute. reflexivity.
  - intros Hin. vm_compute in Hin. inversion Hin.
  - intros Hin. vm_compute in Hin. inversion Hin.
  - intros Hin. vm_compute in Hin. inversion Hin.
Defined.

Lemma failure_is_rescued_then_raised_witness :
  let t := translator true (Some (TranslationError "no response")) in
  let w := ready (Some "true") in
  let w_failed := (run_script (script t) (entering_run w)).2 in
  TranslateSubtitles t w
  = (Raise (TranslationError "no response"),
     if stop_on_error t then (SaveTranslation None w_failed).2 else w_failed).
Proof.
  cbv zeta.
  apply (failure_is_rescued_then_raised
           (translator true (Some (TranslationError "no response")))
           (ready (Some "true")) project_content).
  - vm_compute. reflexivity.
  - reflexivity.
  - reflexivity.
  - vm_compute. reflexivity.
Defined.

Lemma write_project_file_checkpoints_witness :
  let w := ready (Some "true") in
  WriteProjectFile None w
  = (Return tt,
     {| project := set_needsupdate false (project w);
        disk := <[normpath "film.subtrans" := encode project_content]> (disk w);
        translator_events := translator_events w;
        trace := trace w ++ [FileWritten (normpath "film.subtrans")
                               (encode project_content)] |}).
Proof.
  cbv zeta.
  apply (write_project_file_checkpoints (ready (Some "true")) project_content
           "film.subtrans").
  - vm_compute. reflexivity.
  - discriminate.
  - vm_compute. reflexivity.
  - discriminate.
Defined.


(** The file a path names is found under its normalisation: reading
    [./film.subtrans] loads the project file [film.subtrans]. *)
Lemma read_project_file_resolves_path :
  let w := start (Some "read") false in
  ReadProjectFile (Some "./film.subtrans") w
  = ReadProjectFile (Some "film.subtrans") w /\
  (ReadProjectFile (Some "./film.subtrans") w).1 = Return (Some project_content).
Proof. by_computation. Qed.

End Examples.

(** * The further properties at concrete inputs *)

Section CoverageExamples.

Import Sample.
#[local] Existing Instance Sample.collaborators.

Lemma translate_without_write_never_writes_witness :
  let t := translator true (Some (TranslationError "no response")) in
  let w := ready None in
  let w' := (TranslateSubtitles t w).2 in
  disk w' = disk w /\ write_project (mode (project w')) = false.
Proof.
  cbv zeta.
  apply (translate_without_write_never_writes
           (translator true (Some (TranslationError "no response")))
           (ready None)).
  vm_compute. reflexivity.
Defined.

Lemma translate_fails_priming_without_scenes_witness :
  let t := translator false None in
  let w := ready (Some "write") in
  TranslateSubtitles t w
  = (Raise (Exception "Can't write project file, no scenes"), w).
Proof.
  cbv zeta.
  apply (translate_fails_priming_without_scenes (translator false None)
           (ready (Some "write")) source_content);
    vm_compute; reflexivity.
Defined.

Lemma initialise_fresh_start_witness :
  let w := start None false in
  InitialiseProject "film.srt" (Some "film.fr.srt") false w
  = (if has_subtitles source_content then Return tt
     else Raise (ValueError (String.append "No subtitles to translate in "
                               (normpath "film.srt"))),
     initialised w "film.srt" (mode (project w)) source_content
       (Some "film.fr.srt")).
Proof.
  cbv zeta.
  apply (initialise_fresh_start "film.srt" (Some "film.fr.srt") false
           (start None false) source_content).
  - vm_compute. discriminate.
  - reflexivity.
  - reflexivity.
  - vm_compute. reflexivity.
Defined.

Lemma initialise_missing_project_file_witness :
  let w := start_on source_only (Some "resume") in
  InitialiseProject "film.srt" None true w
  = (Return tt,
     initialised w "film.srt"
       (set_load_subtitles true (set_read_project false (mode (project w))))
       source_content None).
Proof.
  cbv zeta.
  apply (initialise_missing_project_file "film.srt" None true
           (start_on source_only (Some "resume")) source_content).
  - reflexivity.
  - vm_compute. reflexivity.
  - vm_compute. reflexivity.
  - reflexivity.
Defined.

Lemma initialise_resumes_project_witness :
  let w := start (Some "resume") false in
  InitialiseProject "film.srt" None false w
  = (Return tt,
     initialised w "film.srt" (set_load_subtitles false (mode (project w)))
       (Sanitise project_content) None).
Proof.
  cbv zeta.
  apply (initialise_resumes_project "film.srt" None (start (Some "resume") false)
           "{scenes}" project_content).
  - reflexivity.
  - vm_compute. reflexivity.
  - reflexivity.
  - discriminate.
  - reflexivity.
Defined.

Lemma initialise_falls_back_to_source_witness :
  let w := start_on unusable_project (Some "read") in
  InitialiseProject "film.srt" None false w
  = (Return tt,
     initialised w "film.srt" (set_load_subtitles true (mode (project w)))
       source_content None).
Proof.
  cbv zeta.
  apply (initialise_falls_back_to_source "film.srt" None false
           (start_on unusable_project (Some "read")) "{scenes" source_content).
  - reflexivity.
  - vm_compute. reflexivity.
  - left. reflexivity.
  - vm_compute. reflexivity.
  - reflexivity.
Defined.

Lemma initialise_without_source_fails_witness :
  let w := start (Some "resum") false in
  InitialiseProject "film.srt" None false w
  = (Raise (UnboundLocalError "cannot access local variable 'subtitles'"),
     {| project := set_projectfile (Some (project_path "film.srt")) (project w);
        disk := disk w; translator_events := translator_events w;
        trace := trace w |}).
Proof.
  cbv zeta.
  apply (initialise_without_source_fails "film.srt" None false
           (start (Some "resum") false)).
  - vm_compute. discriminate.
  - reflexivity.
  - reflexivity.
Defined.

Lemma write_project_file_with_path_witness :
  (WriteProjectFile (Some "copy.srt") loaded).1 = Return tt /\
  projectfile (project (WriteProjectFile (Some "copy.srt") loaded).2)
  = Some "copy.subtrans" /\
  trace (WriteProjectFile (Some "copy.srt") loaded).2
  = [FileWritten "copy.srt" "{scenes}"].
Proof.
  destruct (write_project_file_with_path "copy.srt" loaded project_content)
    as [Hadopt _].
  - vm_compute. reflexivity.
  - discriminate.
  - discriminate.
  - rewrite Hadopt by reflexivity.
    repeat apply conj; vm_compute; reflexivity.
Defined.

Lemma written_project_reads_back_witness :
  let w := ready (Some "true") in
  (WriteProjectFile None ;;; ReadProjectFile None) w
  = (Return (Some (Sanitise project_content)),
     {| project :=
          set_subtitles (PySubtitleFile (Sanitise project_content))
            (set_needsupdate false (project w));
        disk := <["film.subtrans" := encode project_content]> (disk w);
        translator_events := translator_events w;
        trace := trace w ++ [FileWritten "film.subtrans"
                               (encode project_content)] |}).
Proof.
  cbv zeta.
  apply (written_project_reads_back (ready (Some "true")) project_content
           project_content "film.subtrans").
  - vm_compute. reflexivity.
  - discriminate.
  - vm_compute. reflexivity.
  - discriminate.
  - vm_compute. reflexivity.
  - reflexivity.
Defined.

Lemma failed_checkpoint_clears_dirty_flag_witness :
  exists msg,
    _background_autosave_pass dirty_unbatched
    = (Raise (Exception msg),
       {| project := set_needsupdate false (project dirty_unbatched);
          disk := disk dirty_unbatched;
          translator_events := translator_events dirty_unbatched;
          trace := trace dirty_unbatched |}).
Proof.
  apply failed_checkpoint_clears_dirty_flag.
  - vm_compute. reflexivity.
  - right. right. exists source_content. split; vm_compute; reflexivity.
Defined.

Lemma translate_scene_without_scene_witness :
  let t := translator true None in
  let w := ready (Some "true") in
  TranslateScene t 7 None None w
  = (Raise (ValueError "Scene does not exist"),
     if stop_on_error t then (SaveTranslation None (entering_scene w)).2
     else entering_scene w).
Proof.
  cbv zeta.
  apply (translate_scene_without_scene (translator true None) 7%Z None None
           (ready (Some "true")) project_content).
  - vm_compute. reflexivity.
  - reflexivity.
  - reflexivity.
Defined.

Lemma completed_scene_returns_scene_witness :
  let t := translator false None in
  let w := ready (Some "true") in
  (TranslateScene t 1 None None w).1 = Return 1%Z /\
  translator_events (TranslateScene t 1 None None w).2 = translator_events w.
Proof.
  cbv zeta.
  apply (completed_scene_returns_scene (translator false None) 1%Z None None
           (ready (Some "true")) project_content).
  - vm_compute. reflexivity.
  - reflexivity.
  - reflexivity.
  - intros Hin. vm_compute in Hin. inversion Hin.
  - intros Hin. vm_compute in Hin. inversion Hin.
Defined.

Lemma run_leaves_dirty_flag_witness :
  let t := translator false (Some (TranslationAbortedError "cancelled")) in
  let w := ready (Some "true") in
  needsupdate (project (TranslateSubtitles t w).2)
  = update_project (mode (project w)).
Proof.
  cbv zeta.
  apply (run_leaves_dirty_flag
           (translator false (Some (TranslationAbortedError "cancelled")))
           (ready (Some "true"))).
  - vm_compute. reflexivity.
  - vm_compute. reflexivity.
  - exists SceneTranslated, (Scene 1%Z). simpl. tauto.
Defined.

Lemma script_without_project_mode_writes_nothing_witness :
  let w' :=
    (gpt_subtrans "film.srt" None false
       ({[ "model" := Some "gpt-4" ]} : gmap string value)
       (translator true None)
       (new_world (options_of None true) files no_handlers)).2 in
  disk w' = files /\ write_project (mode (project w')) = false.
Proof.
  cbv zeta.
  apply (script_without_project_mode_writes_nothing (options_of None true)
           files no_handlers "film.srt" None false
           ({[ "model" := Some "gpt-4" ]} : gmap string value)
           (translator true None) source_content).
  - reflexivity.
  - vm_compute. discriminate.
  - vm_compute. reflexivity.
  - reflexivity.
Defined.

Lemma project_settings_round_trip_witness :
  let w := ready (Some "true") in
  (let* st := GetProjectSettings value_truthy in UpdateProjectSettings st) w
  = (Return tt, w).
Proof.
  cbv zeta.
  destruct (project_settings_round_trip value_truthy (ready (Some "true")))
    as [Hfile _].
  destruct (Hfile project_content) as [_ Hnoop].
  - vm_compute. reflexivity.
  - apply Hnoop. intros k v _. unfold value_eq. simpl.
    apply bool_decide_eq_true_2. reflexivity.
Defined.

Lemma initialise_resumes_with_backup_witness :
  let w := start (Some "read") false in
  let backup := normpath (GetBackupFilepath (project_path "film.srt")) in
  let w1 :=
    initialised w "film.srt"
      (written_with_path (set_load_subtitles false (mode (project w))))
      (Sanitise project_content) None in
  InitialiseProject "film.srt" None true w
  = (Return tt,
     {| project := set_needsupdate false (project w1);
        disk := <[backup := encode (Sanitise project_content)]> (disk w);
        translator_events := translator_events w;
        trace := trace w ++ [FileWritten backup
                               (encode (Sanitise project_content))] |}).
Proof.
  cbv zeta.
  apply (initialise_resumes_with_backup "film.srt" None
           (start (Some "read") false) "{scenes}" project_content).
  - reflexivity.
  - vm_compute. reflexivity.
  - reflexivity.
  - discriminate.
  - reflexivity.
  - vm_compute. discriminate.
Defined.

Lemma update_settings_without_scenes_witness :
  let new : gmap string value := {[ "model" := Some "gpt-5" ]} in
  let w := ready (Some "write") in
  UpdateProjectSettings new w
  = (Return tt,
     {| project :=
          set_subtitles
            (PySubtitleFile (sf_UpdateProjectSettings new source_content))
            (project w);
        disk := disk w; translator_events := translator_events w;
        trace := trace w |}).
Proof.
  cbv zeta.
  apply (update_settings_without_scenes
           ({[ "model" := Some "gpt-5" ]} : gmap string value)
           (ready (Some "write")) source_content "model" (Some "gpt-5")).
  - vm_compute. reflexivity.
  - vm_compute. reflexivity.
  - vm_compute. reflexivity.
  - reflexivity.
Defined.

Lemma translate_checkpoints_before_translating_witness :
  let t := translator true (Some (TranslationError "no response")) in
  let w := ready (Some "true") in
  let w' := (TranslateSubtitles t w).2 in
  disk w' = <[normpath "film.subtrans" := encode project_content]> (disk w) /\
  exists effects,
    trace w' = trace w ++ FileWritten (normpath "film.subtrans")
                            (encode project_content) :: effects.
Proof.
  cbv zeta.
  apply (translate_checkpoints_before_translating
           (translator true (Some (TranslationError "no response")))
           (ready (Some "true")) project_content "film.subtrans").
  - vm_compute. reflexivity.
  - discriminate.
  - vm_compute. reflexivity.
  - discriminate.
  - vm_compute. reflexivity.
Defined.

Lemma write_backup_file_writes_backup_witness :
  let w := ready (Some "read") in
  let backup := normpath (GetBackupFilepath "film.subtrans") in
  WriteBackupFile w
  = (Return tt,
     {| project :=
          set_needsupdate false
            (set_mode (written_with_path (mode (project w))) (project w));
        disk := <[backup := encode project_content]> (disk w);
        translator_events := translator_events w;
        trace := trace w ++ [FileWritten backup (encode project_content)] |}).
Proof.
  cbv zeta.
  destruct (write_backup_file_writes_backup (ready (Some "read")))
    as [_ Hbackup].
  apply (Hbackup project_content "film.subtrans").
  - vm_compute. reflexivity.
  - discriminate.
  - vm_compute. reflexivity.
  - discriminate.
Defined.

Lemma marked_project_is_checkpointed_witness :
  let w := ready (Some "true") in
  (UpdateProjectFile ;;; _background_autosave_pass) w
  = (Return tt,
     {| project := set_needsupdate false (project w);
        disk := <[normpath "film.subtrans" := encode project_content]> (disk w);
        translator_events := translator_events w;
        trace := trace w ++ [FileWritten (normpath "film.subtrans")
                               (encode project_content)] |}).
Proof.
  cbv zeta.
  destruct (marked_project_is_checkpointed (ready (Some "true")))
    as [_ Hmarked].
  apply (Hmarked project_content "film.subtrans").
  - vm_compute. reflexivity.
  - vm_compute. reflexivity.
  - discriminate.
  - vm_compute. reflexivity.
  - discriminate.
Defined.

End CoverageExamples.
